(** * Desert Candle Works cost calculator: a shallow embedding of
    [candle_cost_ui.py] and the properties of its computational core.

    Python [float] values are IEEE 754 binary64 numbers.  They are modelled
    with the Standard Library's executable specification of binary
    floating-point arithmetic ([SpecFloat], precision 53, maximal exponent
    1024, rounding to nearest even), so that every rounding, underflow,
    infinity and NaN of the program is present in the model.

    Python [dict]s keep their insertion order.  Where the order of iteration
    is observable (a float sum runs over the entries) the dict is an
    association list without duplicate keys; where the program only looks
    up and stores by key it is a [gmap].

    The Streamlit widgets are inputs: the value a widget returns is an
    argument of the function that models the code using it.  What a button
    handler shows with [st.warning] or [st.success] is returned as data.
    An exception that Python would raise is a [Raise] result.  Writing the
    JSON files is not modelled. *)

From Stdlib Require Import ZArith Bool List String Ascii Lia.
From Stdlib Require Import Floats.SpecFloat.
From stdpp Require Import gmap strings list fin_maps.

Import ListNotations.
Local Open Scope Z_scope.

(** ** Binary64 arithmetic *)

Module Float.

Definition prec : Z := 53.
Definition emax : Z := 1024.

Definition float : Type := spec_float.

Definition add : float -> float -> float := SFadd prec emax.
Definition sub : float -> float -> float := SFsub prec emax.
Definition mul : float -> float -> float := SFmul prec emax.
Definition div : float -> float -> float := SFdiv prec emax.
Definition abs : float -> float := SFabs.
Definition eqb : float -> float -> bool := SFeqb.
Definition ltb : float -> float -> bool := SFltb.
Definition leb : float -> float -> bool := SFleb.

(** Conversion of a Python [int]; the caller checks for overflow. *)
Definition of_Z (z : Z) : float := binary_normalize prec emax z 0 false.

(** The literal with decimal digits [n] and [k] digits after the point,
    [n / 10^k] correctly rounded. *)
Definition decimal (n : Z) (k : nat) : float :=
  div (of_Z n) (of_Z (10 ^ Z.of_nat k)).

Definition zero : float := S754_zero false.
Definition hundred : float := Eval vm_compute in of_Z 100.
Definition hundredth : float := Eval vm_compute in decimal 1 2.

Definition is_nan (x : float) : bool :=
  match x with S754_nan => true | _ => false end.

Definition is_finite (x : float) : bool :=
  match x with S754_zero _ | S754_finite _ _ _ => true | _ => false end.

(** [sign_is s x]: [x] is NaN or carries the sign [s]. *)
Definition sign_is (s : bool) (x : float) : Prop :=
  match x with
  | S754_nan => True
  | S754_zero s' | S754_infinity s' | S754_finite s' _ _ => s' = s
  end.

(** Python's comparison operators on floats. *)
Definition gt (x y : float) : bool := ltb y x.
Definition le (x y : float) : bool := leb x y.

(** [sum] of Python over floats, as the language reference defines it: the
    items are added from left to right, starting from 0.  (CPython 3.12 and
    later compensate the rounding errors of these additions; the sums of
    the scenarios below are exact, and the theorems hold alike for a
    compensated sum, since they rely on no rounding of it.) *)
Definition sum (l : list float) : float := fold_left add l zero.

End Float.

Abbreviation float := Float.float.

(** ** Exceptions *)

Inductive exn : Type :=
| ZeroDivisionError
| OverflowError
| KeyError (k : string).

Inductive result (A : Type) : Type :=
| Ok (a : A)
| Raise (e : exn).

Arguments Ok {A} a.
Arguments Raise {A} e.

#[global] Instance result_ret : MRet result := fun A a => Ok a.

#[global] Instance result_bind : MBind result := fun A B f r =>
  match r with
  | Ok a => f a
  | Raise e => Raise e
  end.

Definition raises {A : Type} (r : result A) : bool :=
  match r with Ok _ => false | Raise _ => true end.

(** [x / y] on floats raises [ZeroDivisionError] when [y] is a zero. *)
Definition truediv (x y : float) : result float :=
  if Float.eqb y Float.zero then Raise ZeroDivisionError
  else Ok (Float.div x y).

(** [float(n)] for an [int] raises [OverflowError] beyond the float range. *)
Definition float_of_int (n : Z) : result float :=
  match Float.of_Z n with
  | S754_infinity _ => Raise OverflowError
  | f => Ok f
  end.

(** ** Recipe calculator *)

Record results : Type := {
  wax_oz : float;
  fragrance_oz : float;
  wax_cost : float;
  fragrance_cost : float;
  wick_cost : float;
  total_material_cost : float;
  cost_per_wax_oz : float
}.

Definition compute_results
  (water_oz wax_cost_per_oz water_to_wax_ratio fragrance_load
   fo_cost_per_oz wick_cost : float) : result results :=
  let wax_oz := Float.mul water_oz water_to_wax_ratio in
  let fragrance_oz := Float.mul wax_oz fragrance_load in
  let wax_cost := Float.mul wax_oz wax_cost_per_oz in
  let fragrance_cost := Float.mul fragrance_oz fo_cost_per_oz in
  let total_material_cost :=
    Float.add (Float.add wax_cost fragrance_cost) wick_cost in
  cost_per_wax_oz ←
    (if Float.gt wax_oz Float.zero then truediv total_material_cost wax_oz
     else Ok Float.zero);
  Ok {| wax_oz := wax_oz;
        fragrance_oz := fragrance_oz;
        wax_cost := wax_cost;
        fragrance_cost := fragrance_cost;
        wick_cost := wick_cost;
        total_material_cost := total_material_cost;
        cost_per_wax_oz := cost_per_wax_oz |}.

(** ** Strings

    A Python [str] is a sequence of code points; the model covers the code
    points below 256, one [ascii] each. *)

Module PyStr.

(** [str.isspace] on the code points below 256. *)
Definition is_space (c : ascii) : bool :=
  let n := N_of_ascii c in
  ((9 <=? n) && (n <=? 13) || (28 <=? n) && (n <=? 32)
   || (n =? 133) || (n =? 160))%N.

Fixpoint lstrip (s : string) : string :=
  match s with
  | EmptyString => EmptyString
  | String c s' => if is_space c then lstrip s' else s
  end.

Fixpoint rstrip (s : string) : string :=
  match s with
  | EmptyString => EmptyString
  | String c s' =>
      match rstrip s' with
      | EmptyString => if is_space c then EmptyString else String c EmptyString
      | r => String c r
      end
  end.

(** [s.strip()] *)
Definition strip (s : string) : string := rstrip (lstrip s).

(** [str.lower] on one code point below 256: the letters A to Z and the
    accented capitals 192 to 222 (but the sign 215) move up by 32. *)
Definition lower_char (c : ascii) : ascii :=
  let n := N_of_ascii c in
  if ((65 <=? n) && (n <=? 90)
      || (192 <=? n) && (n <=? 222) && negb (n =? 215))%N
  then ascii_of_N (n + 32) else c.

Fixpoint lower (s : string) : string :=
  match s with
  | EmptyString => EmptyString
  | String c s' => String (lower_char c) (lower s')
  end.

(** [s.replace(old, new)] for one-character [old] and [new]. *)
Fixpoint replace (old new : ascii) (s : string) : string :=
  match s with
  | EmptyString => EmptyString
  | String c s' =>
      String (if Ascii.eqb c old then new else c) (replace old new s')
  end.

(** [not s]: the string is empty. *)
Definition is_empty (s : string) : bool :=
  match s with EmptyString => true | _ => false end.

End PyStr.

(** ** Insertion-ordered dictionaries with string keys *)

Module ODict.
Section Ops.
Context {V : Type}.

Definition t : Type := list (string * V).

Definition keys (d : t) : list string := map fst d.
Definition values (d : t) : list V := map snd d.

(** [d.get(k)] *)
Fixpoint get (k : string) (d : t) : option V :=
  match d with
  | [] => None
  | (k', v) :: d' => if decide (k = k') then Some v else get k d'
  end.

(** [d[k] = v]: an existing key keeps its place, a new one goes last. *)
Fixpoint set (k : string) (v : V) (d : t) : t :=
  match d with
  | [] => [(k, v)]
  | (k', v') :: d' =>
      if decide (k = k') then (k', v) :: d' else (k', v') :: set k v d'
  end.

(** The value stored under [k] is changed in place by [f]. *)
Fixpoint alter (f : V -> V) (k : string) (d : t) : t :=
  match d with
  | [] => []
  | (k', v) :: d' =>
      if decide (k = k') then (k', f v) :: d' else (k', v) :: alter f k d'
  end.

(** [del d[k]] on the entries. *)
Fixpoint remove (k : string) (d : t) : t :=
  match d with
  | [] => []
  | (k', v) :: d' =>
      if decide (k = k') then remove k d' else (k', v) :: remove k d'
  end.

End Ops.
Arguments t V : clear implicits.
End ODict.

(** ** Blend engine *)

(** A blend definition [{"scents": {scent_key: pct, ...}}]; the key
    ["scents"] may be missing. *)
Record blend_def : Type := {
  def_scents : option (ODict.t float)
}.

(** [blend_def.get("scents", {})] *)
Definition blend_scents_of (blend_def : blend_def) : ODict.t float :=
  default [] (def_scents blend_def).

(** The two warnings of [compute_blend_cost_from_definition], with the
    values their texts are formatted from. *)
Inductive warning : Type :=
| PercentsNot100 (total_pct : float)
| ScentNotInList (scent_key : string).

(** One turn of the loop over [blend_scents.items()]. *)
Definition blend_cost_step (scents_dict : gmap string float)
  (state : float * list warning) (item : string * float)
  : float * list warning :=
  let '(weighted_cost, warnings) := state in
  let '(scent_key, pct) := item in
  match scents_dict !! scent_key with
  | None => (weighted_cost, warnings ++ [ScentNotInList scent_key])
  | Some cost =>
      let weight := Float.div pct Float.hundred in
      (Float.add weighted_cost (Float.mul weight cost), warnings)
  end.

Definition compute_blend_cost_from_definition
  (scents_dict : gmap string float) (blend_def : blend_def)
  : float * float * list warning :=
  let blend_scents := blend_scents_of blend_def in
  let total_pct := Float.sum (ODict.values blend_scents) in
  let warnings :=
    if Float.gt (Float.abs (Float.sub total_pct Float.hundred)) Float.hundredth
    then [PercentsNot100 total_pct] else [] in
  let '(weighted_cost, warnings) :=
    fold_left (blend_cost_step scents_dict) blend_scents
      (Float.zero, warnings) in
  (weighted_cost, total_pct, warnings).

(** The loop of [build_new_blend] that builds the dict from the rows. *)
Definition add_row (blend_scents : ODict.t float) (row : string * float)
  : ODict.t float :=
  let '(scent_key, pct) := row in
  if Float.gt pct Float.zero
  then ODict.set scent_key
         (Float.add (default Float.zero (ODict.get scent_key blend_scents)) pct)
         blend_scents
  else blend_scents.

Definition rows_to_blend (rows : list (string * float)) : ODict.t float :=
  fold_left add_row rows [].

(** The pricing loop of [build_new_blend]: [scents_dict[scent_key]] is not
    guarded there. *)
Fixpoint weighted_cost_of (scents_dict : gmap string float)
  (weighted_cost : float) (items : list (string * float)) : result float :=
  match items with
  | [] => Ok weighted_cost
  | (scent_key, pct) :: items' =>
      let weight := Float.div pct Float.hundred in
      match scents_dict !! scent_key with
      | None => Raise (KeyError scent_key)
      | Some cost =>
          weighted_cost_of scents_dict
            (Float.add weighted_cost (Float.mul weight cost)) items'
      end
  end.

(** [rows] are the pairs read from the selectboxes and number inputs. *)
Definition build_new_blend (scents_dict : gmap string float)
  (rows : list (string * float))
  : result (option float * float * ODict.t float) :=
  let blend_scents := rows_to_blend rows in
  let total_pct := Float.sum (ODict.values blend_scents) in
  match blend_scents with
  | [] => Ok (None, total_pct, [])
  | _ =>
      if Float.gt (Float.abs (Float.sub total_pct Float.hundred))
           Float.hundredth
      then Ok (None, total_pct, blend_scents)
      else
        weighted_cost ← weighted_cost_of scents_dict Float.zero blend_scents;
        Ok (Some weighted_cost, total_pct, blend_scents)
  end.

(** What a button handler shows: a warning with its text, or success. *)
Inductive feedback : Type :=
| Warning (msg : string)
| Success.

(** The body of [if st.button("Save blend")] in [blend_selector]. *)
Definition save_blend (blends : gmap string blend_def) (blend_name : string)
  (blend_scents : ODict.t float) (total_pct : float)
  : gmap string blend_def * feedback :=
  if PyStr.is_empty (PyStr.strip blend_name)
  then (blends, Warning "Please enter a blend name.")
  else
    match blend_scents with
    | [] => (blends, Warning "Define a valid blend before saving.")
    | _ =>
        if Float.gt (Float.abs (Float.sub total_pct Float.hundred))
             Float.hundredth
        then (blends, Warning "Blend must total 100% before saving.")
        else
          let name_key := PyStr.strip blend_name in
          (<[name_key := {| def_scents := Some blend_scents |}]> blends,
           Success)
    end.

(** The "Create new blend" branch up to the save button: the blend built
    from the rows is the one the handler receives. *)
Definition create_and_save_blend (scents_dict : gmap string float)
  (blends : gmap string blend_def) (rows : list (string * float))
  (blend_name : string)
  : result (gmap string blend_def * feedback) :=
  '(cost, total_pct, blend_scents) ← build_new_blend scents_dict rows;
  Ok (save_blend blends blend_name blend_scents total_pct).

(** ** Catalog store *)

Record catalog : Type := {
  scents : gmap string float;
  custom_scents : gmap string float
}.

(** The body of [if st.button("Add scent to list")] in [add_custom_scent],
    on the two session dicts it stores into. *)
Definition add_custom_scent (state : catalog) (name : string)
  (bottle_oz total_cost : float) : result (catalog * feedback) :=
  if PyStr.is_empty (PyStr.strip name)
  then Ok (state, Warning "Please enter a scent name.")
  else if Float.le bottle_oz Float.zero || Float.le total_cost Float.zero
  then Ok (state,
           Warning "Bottle size and cost must both be greater than 0.")
  else
    let key := PyStr.replace " " "_" (PyStr.lower (PyStr.strip name)) in
    cost_per_oz ← truediv total_cost bottle_oz;
    Ok ({| scents := <[key := cost_per_oz]> (scents state);
           custom_scents := <[key := cost_per_oz]> (custom_scents state) |},
        Success).

(** ** Inventory ledger *)

Record inventory_item : Type := {
  sku : string;
  product_name : string;
  container_id : string;
  blend_name : string;
  production_date : string;
  batch_number : string;
  quantity : Z;
  material_cost : float;
  container_cost : option float;
  target_price : float;
  wick_config : list (string * Z);
  item_wax_oz : float;
  item_fragrance_oz : float;
  water_oz : float;
  notes : string
}.

Record summary : Type := {
  total_items : nat;
  total_quantity : Z;
  total_value : float
}.

(** [item["quantity"] * (item["material_cost"] + item.get("container_cost", 0))] *)
Definition stock_value (item : inventory_item) : result float :=
  q ← float_of_int (quantity item);
  Ok (Float.mul q
        (Float.add (material_cost item)
           (default Float.zero (container_cost item)))).

(** [sum] over the generator of stock values: each value is computed when
    the running total reaches it. *)
Fixpoint sum_stock_values (total : float) (items : list inventory_item)
  : result float :=
  match items with
  | [] => Ok total
  | item :: items' =>
      v ← stock_value item;
      sum_stock_values (Float.add total v) items'
  end.

(** The summary metrics of the inventory tab. *)
Definition summary_metrics (inventory : ODict.t inventory_item)
  : result summary :=
  let total_items := length inventory in
  let total_quantity :=
    fold_left Z.add (map quantity (ODict.values inventory)) 0 in
  total_value ← sum_stock_values Float.zero (ODict.values inventory);
  Ok {| total_items := total_items;
        total_quantity := total_quantity;
        total_value := total_value |}.

(** The tab shows the metrics only for a non-empty inventory. *)
Definition inventory_tab (inventory : ODict.t inventory_item)
  : result (option summary) :=
  match inventory with
  | [] => Ok None
  | _ => s ← summary_metrics inventory; Ok (Some s)
  end.

Definition set_quantity (new_qty : Z) (item : inventory_item)
  : inventory_item :=
  {| sku := sku item;
     product_name := product_name item;
     container_id := container_id item;
     blend_name := blend_name item;
     production_date := production_date item;
     batch_number := batch_number item;
     quantity := new_qty;
     material_cost := material_cost item;
     container_cost := container_cost item;
     target_price := target_price item;
     wick_config := wick_config item;
     item_wax_oz := item_wax_oz item;
     item_fragrance_oz := item_fragrance_oz item;
     water_oz := water_oz item;
     notes := notes item |}.

(** [st.session_state.inventory[item_id]['quantity'] = new_qty] *)
Definition update_quantity (inventory : ODict.t inventory_item)
  (item_id : string) (new_qty : Z) : result (ODict.t inventory_item) :=
  match ODict.get item_id inventory with
  | None => Raise (KeyError item_id)
  | Some _ => Ok (ODict.alter (set_quantity new_qty) item_id inventory)
  end.

(** ** The formulas of the specification

    These definitions follow the words of the specification; the theorems
    compare them with the functions above. *)

(** [percent / 100 × catalog[scent]], defined when the catalog has the
    scent. *)
Definition spec_contribution (catalog : gmap string float)
  (entry : string * float) : option float :=
  cost ← catalog !! entry.1;
  Some (Float.mul (Float.div entry.2 Float.hundred) cost).

(** The weighted sum over all entries of a blend, defined when every scent
    is in the catalog. *)
Definition spec_weighted_sum (catalog : gmap string float)
  (entries : list (string * float)) : option float :=
  Float.sum <$> mapM (spec_contribution catalog) entries.

(** The contributions of the entries whose scent is in the catalog. *)
Definition spec_known_contributions (catalog : gmap string float)
  (entries : list (string * float)) : list float :=
  omap (spec_contribution catalog) entries.

(** The scent keys of a blend that the catalog does not have. *)
Definition spec_unknown_keys (catalog : gmap string float)
  (entries : list (string * float)) : list string :=
  filter (fun k => catalog !! k = None) (ODict.keys entries).

(** The percentages of the rows of [createBlend] that are kept for a key:
    those with that key and a percentage above 0, in the order of the rows. *)
Definition spec_kept_percents (key : string) (rows : list (string * float))
  : list float :=
  snd <$> filter (fun row => row.1 = key /\ Float.gt row.2 Float.zero = true)
            rows.

(** Σ quantity *)
Definition spec_total_units (items : list inventory_item) : Z :=
  foldr Z.add 0 (quantity <$> items).

(** [quantity × (materialCost + containerCost)], containerCost 0 if absent *)
Definition spec_item_value (item : inventory_item) : float :=
  Float.mul (Float.of_Z (quantity item))
    (Float.add (material_cost item)
       (match container_cost item with Some c => c | None => Float.zero end)).

(** Σ quantity × (materialCost + containerCost) *)
Definition spec_total_value (items : list inventory_item) : float :=
  Float.sum (spec_item_value <$> items).

(** A blank name: nothing but white space. *)
Fixpoint spec_blank (s : string) : bool :=
  match s with
  | EmptyString => true
  | String c s' => PyStr.is_space c && spec_blank s'
  end.

(** The key of a custom scent: the name trimmed, then lowercased, then with
    its spaces replaced by underscores. *)
Definition spec_scent_key (name : string) : string :=
  PyStr.replace " " "_" (PyStr.lower (PyStr.strip name)).

(** The summary of the specification: the number of items, Σ quantity and
    Σ quantity × (materialCost + containerCost). *)
Definition spec_summary (inventory : ODict.t inventory_item) : summary :=
  {| total_items := length inventory;
     total_quantity := spec_total_units (ODict.values inventory);
     total_value := spec_total_value (ODict.values inventory) |}.

(** Every quantity is within the range of [float]: converting it does not
    raise [OverflowError]. *)
Definition quantities_convert (items : list inventory_item) : Prop :=
  Forall (fun item => raises (float_of_int (quantity item)) = false) items.

(** ** The scenarios of the specification *)

Module Scenario.

(** Standard recipe: 8 oz of water, wax at 0.2189 per oz, ratio 0.90, load
    0.08, blend at 2.50 per oz, wicks 1.47. *)
Definition standard_recipe : result results :=
  compute_results (Float.of_Z 8) (Float.decimal 2189 4) (Float.decimal 90 2)
    (Float.decimal 8 2) (Float.decimal 250 2) (Float.decimal 147 2).

(** The same recipe for a jar of -1 oz. *)
Definition negative_recipe : result results :=
  compute_results (Float.of_Z (-1)) (Float.decimal 2189 4)
    (Float.decimal 90 2) (Float.decimal 8 2) (Float.decimal 250 2)
    (Float.decimal 147 2).

(** The float printed as 0.5760000000000001, next above 0.576. *)
Definition above_0_576 : float := S754_finite false 5188146770730812 (-53).

(** 5e-324, the smallest float above 0. *)
Definition tiny : float := S754_finite false 1 (-1074).

Definition no_scents : catalog := {| scents := ∅; custom_scents := ∅ |}.

(** A catalog of two scents, at 1.50 and 2.00 per oz. *)
Definition two_scents : gmap string float :=
  {[ "lavender" := Float.decimal 15 1; "leather" := Float.of_Z 2 ]}.

(** 60% lavender and 40% leather. *)
Definition blend_60_40 : blend_def :=
  {| def_scents :=
       Some [("lavender", Float.of_Z 60); ("leather", Float.of_Z 40)] |}.

(** 60% lavender and 30% leather: the total is 90. *)
Definition blend_60_30 : blend_def :=
  {| def_scents :=
       Some [("lavender", Float.of_Z 60); ("leather", Float.of_Z 30)] |}.

(** 50% lavender and 50% of a scent the catalog does not have. *)
Definition blend_with_unknown : blend_def :=
  {| def_scents :=
       Some [("lavender", Float.of_Z 50); ("pumpkin", Float.of_Z 50)] |}.

(** A blend of one scent at 100%. *)
Definition all_lavender : ODict.t float := [("lavender", Float.of_Z 100)].

(** Rows of a new blend: one scent twice, and a row at 0%. *)
Definition rows_with_duplicate : list (string * float) :=
  [("lavender", Float.of_Z 30); ("leather", Float.zero);
   ("lavender", Float.of_Z 70)].

(** Inventory summary: 3 units at 4.00 (saved before the container cost
    existed) and 5 units at 3.50 + 2.50. *)
Definition item_a : inventory_item :=
  {| sku := "DCW-001"; product_name := "Boot Leather - 8oz";
     container_id := "8oz_amber"; blend_name := "Boot Leather";
     production_date := "2025-12-01"; batch_number := "B001";
     quantity := 3; material_cost := Float.of_Z 4; container_cost := None;
     target_price := Float.of_Z 25; wick_config := [("wood_30mm", 1)];
     item_wax_oz := Float.decimal 675 2;
     item_fragrance_oz := Float.decimal 54 2;
     water_oz := Float.decimal 75 1; notes := EmptyString |}.

Definition item_b : inventory_item :=
  {| sku := "DCW-002"; product_name := "Lavender - 8oz";
     container_id := "8oz_amber"; blend_name := "Custom Blend";
     production_date := "2025-12-02"; batch_number := "B002";
     quantity := 5; material_cost := Float.decimal 35 1;
     container_cost := Some (Float.decimal 25 1);
     target_price := Float.of_Z 25; wick_config := [("cdn12", 2)];
     item_wax_oz := Float.decimal 675 2;
     item_fragrance_oz := Float.decimal 54 2;
     water_oz := Float.decimal 75 1; notes := EmptyString |}.

Definition two_items : ODict.t inventory_item :=
  [("dcw-001_20251201_101500", item_a); ("dcw-002_20251202_093000", item_b)].

End Scenario.

(** * The rest of the program *)

(** ** Built-in catalogs *)

Definition SHIPPING_PER_WICK : float :=
  Float.div (Float.decimal 750 2) (Float.decimal 340 1).

Definition BASE_SCENTS : gmap string float :=
  {[ "bonfire_embers" := Float.div (Float.decimal 3887 2) (Float.of_Z 16);
     "lavender" := Float.div (Float.decimal 2471 2) (Float.of_Z 15);
     "leather" := Float.div (Float.decimal 2763 2) (Float.of_Z 16);
     "white_eucalyptus" := Float.div (Float.decimal 3220 2) (Float.of_Z 16);
     "sandalwood" := Float.div (Float.decimal 2591 2) (Float.of_Z 15) ]}.

Definition BASE_WICKS : ODict.t float :=
  [("wood_30mm", Float.add (Float.decimal 125 2) SHIPPING_PER_WICK);
   ("wood_20mm",
    Float.add (Float.div (Float.decimal 825 2) (Float.of_Z 10))
      SHIPPING_PER_WICK);
   ("cdn12",
    Float.add (Float.div (Float.decimal 750 2) (Float.of_Z 10))
      SHIPPING_PER_WICK);
   ("cdn16",
    Float.add (Float.div (Float.decimal 500 2) (Float.of_Z 10))
      SHIPPING_PER_WICK)].

(** ** Containers *)

Module Container.

Record t : Type := {
  name : string;
  capacity_water_oz : float;
  shape : string;
  supplier : string;
  cost_per_unit : float;
  notes : string
}.

End Container.

(** [name.strip().lower().replace(" ", "_")], the derivation of the scent
    keys, of the container ids and of the first part of the item ids. *)
Definition normalize_key (name : string) : string :=
  PyStr.replace " " "_" (PyStr.lower (PyStr.strip name)).

(** [s.strip() if s else ""] *)
Definition strip_or_empty (s : string) : string :=
  if PyStr.is_empty s then EmptyString else PyStr.strip s.

(** The body of [if st.button("Add Container")] in [manage_containers]. *)
Definition add_container (containers : ODict.t Container.t)
  (container_name : string) (capacity_water_oz : float)
  (supplier shape : string) (cost_per_unit : float) (notes : string)
  : ODict.t Container.t * feedback :=
  if PyStr.is_empty (PyStr.strip container_name)
  then (containers, Warning "Please enter a container name.")
  else if Float.le capacity_water_oz Float.zero
  then (containers, Warning "Water capacity must be greater than 0.")
  else
    let container_id := normalize_key container_name in
    (ODict.set container_id
       {| Container.name := PyStr.strip container_name;
          Container.capacity_water_oz := capacity_water_oz;
          Container.shape := shape;
          Container.supplier := strip_or_empty supplier;
          Container.cost_per_unit := cost_per_unit;
          Container.notes := strip_or_empty notes |}
       containers,
     Success).

(** [del d[k]] *)
Definition py_del {V : Type} (k : string) (d : ODict.t V)
  : result (ODict.t V) :=
  match ODict.get k d with
  | None => Raise (KeyError k)
  | Some _ => Ok (ODict.remove k d)
  end.

(** The body of the "Delete" button of a container. *)
Definition delete_container (containers : ODict.t Container.t)
  (container_id : string) : result (ODict.t Container.t) :=
  py_del container_id containers.

(** [containers.get(item['container_id'], {}).get('name', 'Unknown')] in the
    inventory tab. *)
Definition container_display_name (containers : ODict.t Container.t)
  (item : inventory_item) : string :=
  match ODict.get (container_id item) containers with
  | Some container => Container.name container
  | None => "Unknown"
  end.

(** ** Session state *)

(** What the four [load_..._from_file] functions return. *)
Record files : Type := {
  scents_file : gmap string float;
  blends_file : gmap string blend_def;
  containers_file : ODict.t Container.t;
  inventory_file : ODict.t inventory_item
}.

Module Session.

(** [st.session_state]: each key may be missing. *)
Record t : Type := {
  scents : option (gmap string float);
  custom_scents : option (gmap string float);
  wicks : option (ODict.t float);
  blends : option (gmap string blend_def);
  containers : option (ODict.t Container.t);
  inventory : option (ODict.t inventory_item)
}.

Definition fresh : t :=
  {| scents := None; custom_scents := None; wicks := None; blends := None;
     containers := None; inventory := None |}.

End Session.

Definition init_session_state (disk : files) (state : Session.t)
  : Session.t :=
  let scents :=
    match Session.scents state with
    | Some scents => scents
    | None => scents_file disk ∪ BASE_SCENTS
    end in
  let custom_scents :=
    match Session.custom_scents state with
    | Some custom_scents => custom_scents
    | None =>
        filter (fun kv : string * float => BASE_SCENTS !! kv.1 = None) scents
    end in
  {| Session.scents := Some scents;
     Session.custom_scents := Some custom_scents;
     Session.wicks := Some (default BASE_WICKS (Session.wicks state));
     Session.blends := Some (default (blends_file disk) (Session.blends state));
     Session.containers :=
       Some (default (containers_file disk) (Session.containers state));
     Session.inventory :=
       Some (default (inventory_file disk) (Session.inventory state)) |}.

(** ** Wicks *)

(** The loop of [choose_wicks]; [count_input name] is what the number input
    of the wick [name] returns. *)
Fixpoint choose_wicks_loop (count_input : string -> Z)
  (items : list (string * float)) (total_wick_cost : float)
  (wick_counts : ODict.t Z) : result (float * ODict.t Z) :=
  match items with
  | [] => Ok (total_wick_cost, wick_counts)
  | (name, cost) :: items' =>
      let count := count_input name in
      let wick_counts := ODict.set name count wick_counts in
      c ← float_of_int count;
      choose_wicks_loop count_input items'
        (Float.add total_wick_cost (Float.mul c cost)) wick_counts
  end.

Definition choose_wicks (wicks_dict : ODict.t float)
  (count_input : string -> Z) : result (float * ODict.t Z) :=
  choose_wicks_loop count_input wicks_dict Float.zero [].

(** ** Using a saved blend *)

(** The "Use saved blend" branch of [blend_selector]: the cost, if the blend
    is valid, and the description of the source. *)
Definition use_saved_blend (scents_dict : gmap string float)
  (blends : gmap string blend_def) (selected : string)
  : result (option float * string) :=
  if (size blends =? 0)%nat then Ok (None, "no_blend")
  else
    match blends !! selected with
    | None => Raise (KeyError selected)
    | Some blend_def =>
        let '(cost, total_pct, warnings) :=
          compute_blend_cost_from_definition scents_dict blend_def in
        match def_scents blend_def with
        | None => Raise (KeyError "scents")
        | Some _ =>
            if Float.le (Float.abs (Float.sub total_pct Float.hundred))
                 Float.hundredth
               && match warnings with [] => true | _ => false end
            then Ok (Some cost, "saved:" +:+ selected)
            else Ok (None, "saved_invalid:" +:+ selected)
        end
    end.

(** ** Saving to the inventory *)

(** [s.split(sep, 1)] for a one-character separator: one or two parts. *)
Fixpoint split_once (sep : ascii) (s : string) : list string :=
  match s with
  | EmptyString => [EmptyString]
  | String c s' =>
      if Ascii.eqb c sep then [EmptyString; s']
      else
        match split_once sep s' with
        | head :: rest => String c head :: rest
        | [] => [String c EmptyString]
        end
  end.

(** The blend name shown in [add_to_inventory_form]; [None] stands for the
    [IndexError] of [split(":", 1)[1]]. *)
Definition blend_name_of_source (blend_source : string) : option string :=
  if String.prefix "saved:" blend_source
  then split_once ":" blend_source !! 1%nat
  else Some "Custom Blend".

(** The values of the widgets of the form. *)
Record inventory_form : Type := {
  form_sku : string;
  form_product_name : string;
  form_container_id : string;
  form_quantity : Z;
  form_production_date : string;
  form_batch_number : string;
  form_target_price : float;
  form_notes : string
}.

(** The body of [if st.button("Save to Inventory")]; [timestamp] is the
    formatted [datetime.now()] and [form_container_id] the id at the index
    that the selectbox returns. *)
Definition save_to_inventory (containers : ODict.t Container.t)
  (inventory : ODict.t inventory_item) (results : results)
  (blend_name : string) (wick_counts : ODict.t Z) (jar_water_oz : float)
  (form : inventory_form) (timestamp : string)
  : result (ODict.t inventory_item * feedback) :=
  if PyStr.is_empty (PyStr.strip (form_sku form))
  then Ok (inventory, Warning "Please enter a SKU/Product Code.")
  else if PyStr.is_empty (PyStr.strip (form_product_name form))
  then Ok (inventory, Warning "Please enter a Product Name.")
  else
    let item_id := normalize_key (form_sku form) +:+ "_" +:+ timestamp in
    match ODict.get (form_container_id form) containers with
    | None => Raise (KeyError (form_container_id form))
    | Some container =>
        let inventory_item :=
          {| sku := PyStr.strip (form_sku form);
             product_name := PyStr.strip (form_product_name form);
             container_id := form_container_id form;
             blend_name := blend_name;
             production_date := form_production_date form;
             batch_number := PyStr.strip (form_batch_number form);
             quantity := form_quantity form;
             material_cost := total_material_cost results;
             container_cost := Some (Container.cost_per_unit container);
             target_price := form_target_price form;
             wick_config := wick_counts;
             item_wax_oz := wax_oz results;
             item_fragrance_oz := fragrance_oz results;
             water_oz := jar_water_oz;
             notes := strip_or_empty (form_notes form) |} in
        Ok (ODict.set item_id inventory_item inventory, Success)
    end.

(** ** The inventory tab *)

(** [needle in haystack] on strings. *)
Fixpoint contains (needle haystack : string) : bool :=
  String.prefix needle haystack
  || match haystack with
     | EmptyString => false
     | String _ haystack' => contains needle haystack'
     end.

(** The test of the loop over the items: [true] when the item is skipped. *)
Definition skipped_by_search (search : string) (item : inventory_item)
  : bool :=
  negb (PyStr.is_empty search)
  && negb (contains (PyStr.lower search) (PyStr.lower (product_name item)))
  && negb (contains (PyStr.lower search) (PyStr.lower (sku item))).

(** The financial lines of an item: the total unit cost, and the profit and
    margin when a target price is set. *)
Definition item_financials (item : inventory_item)
  : result (float * option (float * float)) :=
  let material_cost := material_cost item in
  let container_cost := default Float.zero (container_cost item) in
  let total_cost := Float.add material_cost container_cost in
  if Float.gt (target_price item) Float.zero
  then
    let profit := Float.sub (target_price item) total_cost in
    margin ←
      (if Float.gt (target_price item) Float.zero
       then q ← truediv profit (target_price item);
            Ok (Float.mul q Float.hundred)
       else Ok Float.zero);
    Ok (total_cost, Some (profit, margin))
  else Ok (total_cost, None).

(** The body of the "Delete" button of an item. *)
Definition delete_item (inventory : ODict.t inventory_item)
  (item_id : string) : result (ODict.t inventory_item) :=
  py_del item_id inventory.

(** ** Notions used in the statements below *)

(** The string is empty or starts with a character that is not white space. *)
Definition starts_clean (s : string) : Prop :=
  match s with
  | EmptyString => True
  | String c _ => PyStr.is_space c = false
  end.

(** [needle] occurs in [haystack]. *)
Definition occurs_in (needle haystack : string) : Prop :=
  exists before after, haystack = before +:+ needle +:+ after.

(** A float that is neither NaN nor negative: +0, a positive number or
    +infinity. *)
Definition nonneg (x : float) : Prop :=
  Float.sign_is false x /\ Float.is_nan x = false.

(** The id under which [save_to_inventory] stores an item. *)
Definition item_id_of (form : inventory_form) (timestamp : string) : string :=
  normalize_key (form_sku form) +:+ "_" +:+ timestamp.

(** Examples for the properties of the rest of the program. *)
Module Cases.

Definition jar : Container.t :=
  {| Container.name := "8oz Amber Jar";
     Container.capacity_water_oz := Float.decimal 75 1;
     Container.shape := "Round";
     Container.supplier := EmptyString;
     Container.cost_per_unit := Float.decimal 25 1;
     Container.notes := EmptyString |}.

Definition one_jar : ODict.t Container.t := [("8oz_amber", jar)].

Definition form : inventory_form :=
  {| form_sku := " DCW 003 "; form_product_name := "Leather - 8oz";
     form_container_id := "8oz_amber"; form_quantity := 4;
     form_production_date := "2025-12-03"; form_batch_number := "B003";
     form_target_price := Float.of_Z 25; form_notes := EmptyString |}.

Definition recipe : results :=
  {| wax_oz := Float.decimal 72 1; fragrance_oz := Scenario.above_0_576;
     wax_cost := Float.decimal 157608 5; fragrance_cost := Float.decimal 144 2;
     wick_cost := Float.decimal 147 2;
     total_material_cost := Float.decimal 448608 5;
     cost_per_wax_oz := Float.decimal 62 2 |}.

(** A scents file that overrides a built-in scent and adds a new one. *)
Definition disk : files :=
  {| scents_file :=
       {[ "lavender" := Float.of_Z 3; "pumpkin_spice" := Float.of_Z 2 ]};
     blends_file := ∅;
     containers_file := one_jar;
     inventory_file := Scenario.two_items |}.

Definition no_wicks (name : string) : Z := 0.

(** The inventory after saving [form] at 10:00:00 on 2025-12-03. *)
Definition three_items : ODict.t inventory_item :=
  match
    save_to_inventory one_jar Scenario.two_items recipe "Custom Blend"
      [("wood_30mm", 1)] (Float.of_Z 8) form "20251203_100000"
  with
  | Ok (inventory, _) => inventory
  | Raise _ => []
  end.

Definition summary_of (inventory : ODict.t inventory_item) : summary :=
  match summary_metrics inventory with
  | Ok s => s
  | Raise _ => spec_summary []
  end.

Definition one_wood_wick (name : string) : Z :=
  if decide (name = "wood_30mm") then 1 else 0.

End Cases.

(** * Properties *)

(** The literals [100.0], [0.01] and [7.2] of the program are these
    binary64 numbers: 0x1.9p+6, 0x1.47ae147ae147bp-7 and
    0x1.ccccccccccccdp+2. *)
Example float_literals :
  Float.hundred = S754_finite false 0x19000000000000 (-46) /\
  Float.hundredth = S754_finite false 0x147ae147ae147b (-59) /\
  Float.decimal 72 1 = S754_finite false 0x1ccccccccccccd (-50).
Proof. repeat split; vm_compute; reflexivity. Qed.

(** ** Facts of binary64 arithmetic used below *)

Module FloatFacts.
Import Float.

Lemma compare_antisym (x y : float) :
  SFcompare y x = option_map CompOpp (SFcompare x y).
Proof.
  destruct x as [[]|[]| |[] mx ex], y as [[]|[]| |[] my ey];
    simpl; try reflexivity;
    rewrite (Z.compare_antisym ex ey); destruct (ex ?= ey); simpl;
    try reflexivity; f_equal;
    pose proof (Pos.compare_cont_antisym mx my Eq) as H; simpl in H.
  - exact (f_equal CompOpp (eq_sym H)).
  - exact (eq_sym H).
Qed.

(** [x <= y] excludes [x > y]. *)
Lemma le_not_gt (x y : float) : le x y = true -> gt x y = false.
Proof.
  unfold le, gt, leb, ltb, SFleb, SFltb. rewrite (compare_antisym x y).
  destruct (SFcompare x y) as [[]|]; simpl; congruence.
Qed.

(** A float that is [> y] is not [== y]. *)
Lemma gt_not_eq (x y : float) : gt x y = true -> eqb x y = false.
Proof.
  unfold gt, eqb, ltb, SFeqb, SFltb. rewrite (compare_antisym x y).
  destruct (SFcompare x y) as [[]|]; simpl; congruence.
Qed.

(** A float that is [== y] is [<= y]. *)
Lemma eq_le (x y : float) : eqb x y = true -> le x y = true.
Proof.
  unfold le, eqb, leb, SFeqb, SFleb.
  destruct (SFcompare x y) as [[]|]; simpl; congruence.
Qed.

(** Rounding keeps the sign it is given. *)
Lemma binary_round_aux_sign (s : bool) (m e : Z) (l : location) :
  sign_is s (binary_round_aux prec emax s m e l).
Proof.
  unfold binary_round_aux.
  destruct (shr_fexp prec emax m e l) as [mrs' e'].
  destruct (shr_fexp prec emax _ e' loc_Exact) as [mrs'' e''].
  destruct (shr_m mrs''); simpl; auto.
  destruct (e'' <=? emax - prec); reflexivity.
Qed.

(** Shifting right keeps a mantissa non-negative. *)
Lemma shr_1_nonneg (mrs : shr_record) :
  0 <= shr_m mrs -> 0 <= shr_m (shr_1 mrs).
Proof.
  destruct mrs as [m r s]; simpl.
  destruct m as [|[p|p|]|p]; simpl; lia.
Qed.

Lemma iter_shr_1_nonneg (p : positive) (mrs : shr_record) :
  0 <= shr_m mrs -> 0 <= shr_m (SpecFloat.iter_pos shr_1 p mrs).
Proof.
  revert mrs. induction p as [p IH|p IH|]; intros mrs H; simpl.
  - apply IH, IH, shr_1_nonneg, H.
  - apply IH, IH, H.
  - apply shr_1_nonneg, H.
Qed.

Lemma shr_fexp_nonneg (m e : Z) (l : location) :
  0 <= m -> 0 <= shr_m (fst (shr_fexp prec emax m e l)).
Proof.
  intros H. unfold shr_fexp, shr.
  assert (H0 : 0 <= shr_m (shr_record_of_loc m l))
    by (destruct l as [|[]]; exact H).
  destruct (fexp prec emax (Zdigits2 m + e) - e); simpl; auto.
  apply iter_shr_1_nonneg, H0.
Qed.

Lemma round_nearest_even_nonneg (m : Z) (l : location) :
  0 <= m -> 0 <= round_nearest_even m l.
Proof.
  intros H. destruct l as [|[]]; simpl; try lia.
  destruct (Z.even m); lia.
Qed.

(** Rounding a non-negative mantissa never gives NaN. *)
Lemma binary_round_aux_not_nan (s : bool) (m e : Z) (l : location) :
  0 <= m -> is_nan (binary_round_aux prec emax s m e l) = false.
Proof.
  intros H. unfold binary_round_aux.
  pose proof (shr_fexp_nonneg m e l H) as H1.
  destruct (shr_fexp prec emax m e l) as [mrs' e']. simpl in H1.
  pose proof (shr_fexp_nonneg _ e' loc_Exact
    (round_nearest_even_nonneg _ (loc_of_shr_record mrs') H1)) as H2.
  destruct (shr_fexp prec emax _ e' loc_Exact) as [mrs'' e'']. simpl in H2.
  destruct (shr_m mrs''); simpl; try lia; try reflexivity.
  destruct (e'' <=? emax - prec); reflexivity.
Qed.

(** A float with the sign bit set, or NaN, is not [> 0]. *)
Lemma negative_not_gt_zero (x : float) : sign_is true x -> gt x zero = false.
Proof. destruct x as [s|s| |s m e]; simpl; intros H; subst; reflexivity. Qed.

(** A float without the sign bit, or NaN, is not [< 0]. *)
Lemma positive_not_lt_zero (x : float) :
  sign_is false x -> ltb x zero = false.
Proof. destruct x as [s|s| |s m e]; simpl; intros H; subst; reflexivity. Qed.

(** A float without the sign bit that is not NaN is [>= 0]. *)
Lemma positive_ge_zero (x : float) :
  sign_is false x -> is_nan x = false -> leb zero x = true.
Proof.
  destruct x as [s|s| |s m e]; simpl; intros H N; subst;
    try reflexivity; discriminate.
Qed.

(** The product of a zero and a finite float is a zero. *)
Lemma mul_zero_l (x y : float) :
  eqb x zero = true -> is_finite y = true -> eqb (mul x y) zero = true.
Proof.
  destruct x as [sx|[]| |[] mx ex], y as [sy|sy| |sy my ey];
    simpl; intros; try reflexivity; discriminate.
Qed.

(** The product of a float [<= 0] and a float [>= 0] is not [> 0]. *)
Lemma mul_nonpos_nonneg (x y : float) :
  le x zero = true -> le zero y = true -> gt (mul x y) zero = false.
Proof.
  destruct x as [sx|[]| |[] mx ex], y as [sy|[]| |[] my ey];
    simpl; intros Hx Hy; try reflexivity; try discriminate.
  apply negative_not_gt_zero.
  apply (binary_round_aux_sign true).
Qed.

(** The quotient of two floats [> 0] carries no sign bit. *)
Lemma div_pos_sign (x y : float) :
  gt x zero = true -> gt y zero = true -> sign_is false (div x y).
Proof.
  destruct x as [sx|[]| |[] mx ex], y as [sy|[]| |[] my ey];
    simpl; intros Hx Hy; try reflexivity; try discriminate.
  unfold div, SFdiv.
  destruct (SFdiv_core_binary prec emax (Z.pos mx) ex (Z.pos my) ey)
    as [[mz ez] lz].
  apply (binary_round_aux_sign false).
Qed.

Lemma div_core_nonneg (mx my : positive) (ex ey : Z) :
  0 <= fst (fst (SFdiv_core_binary prec emax (Z.pos mx) ex (Z.pos my) ey)).
Proof.
  unfold SFdiv_core_binary.
  set (s := ex - ey - _).
  set (m' := match s with Z.pos _ => Z.shiftl (Z.pos mx) s | 0 => Z.pos mx
                     | Z.neg _ => 0 end).
  assert (Hm : 0 <= m').
  { subst m'. destruct s; try lia. apply Z.shiftl_nonneg. lia. }
  pose proof (Z.div_pos m' (Z.pos my) Hm ltac:(lia)) as Hq.
  unfold Z.div in Hq.
  destruct (Z.div_eucl m' (Z.pos my)) as [q r]. exact Hq.
Qed.

(** The quotient of two finite floats [> 0] is not NaN. *)
Lemma div_pos_not_nan (x y : float) :
  gt x zero = true -> gt y zero = true ->
  is_finite x = true -> is_finite y = true -> is_nan (div x y) = false.
Proof.
  destruct x as [sx|[]| |[] mx ex], y as [sy|[]| |[] my ey];
    simpl; intros Hx Hy Fx Fy; try reflexivity; try discriminate.
  unfold div, SFdiv.
  pose proof (div_core_nonneg mx my ex ey) as Hq.
  destruct (SFdiv_core_binary prec emax (Z.pos mx) ex (Z.pos my) ey)
    as [[mz ez] lz].
  apply binary_round_aux_not_nan. exact Hq.
Qed.

End FloatFacts.

(** ** Recipe calculator *)

Section ComputeResults.
Import Float FloatFacts.
Variables water wax_price ratio load fo_price wicks : float.

Let wax := mul water ratio.
Let total :=
  add (add (mul wax wax_price) (mul (mul wax load) fo_price)) wicks.

(** The guard of the division keeps [ZeroDivisionError] away. *)
Lemma guarded_division_ok :
  exists c,
    (if gt wax zero then truediv total wax else Ok zero) = Ok c /\
    (gt wax zero = false -> c = zero).
Proof.
  destruct (gt wax zero) eqn:G.
  - unfold truediv. rewrite (gt_not_eq _ _ G).
    eexists; split; [reflexivity | discriminate].
  - eexists; split; [reflexivity | reflexivity].
Qed.

Lemma compute_results_ok :
  exists c,
    compute_results water wax_price ratio load fo_price wicks
    = Ok {| wax_oz := wax;
            fragrance_oz := mul wax load;
            wax_cost := mul wax wax_price;
            fragrance_cost := mul (mul wax load) fo_price;
            wick_cost := wicks;
            total_material_cost := total;
            cost_per_wax_oz := c |} /\
    (gt wax zero = false -> c = zero).
Proof.
  destruct guarded_division_ok as (c & Hc & Hz).
  exists c. split; [| exact Hz].
  unfold compute_results. fold wax. fold total. rewrite Hc. reflexivity.
Qed.

End ComputeResults.

(** C1 (as amended).  For every input, [compute_results] returns, without
    raising, [wax_oz = water_oz * water_to_wax_ratio], [fragrance_oz =
    wax_oz * fragrance_load], [wax_cost = wax_oz * wax_cost_per_oz],
    [fragrance_cost = fragrance_oz * fo_cost_per_oz] and
    [total_material_cost = wax_cost + fragrance_cost + wick_cost], each
    product and sum being the binary64 one.  For the standard recipe it
    yields [wax_oz = 7.2] and the float 0.5760000000000001 for
    [fragrance_oz], which is within 1e-15 of 0.576, and a total within 0.001
    of 4.486. *)
Theorem C1_compute_results_formulas :
  (forall water wax_price ratio load fo_price wicks : float,
     exists r,
       compute_results water wax_price ratio load fo_price wicks = Ok r /\
       wax_oz r = Float.mul water ratio /\
       fragrance_oz r = Float.mul (wax_oz r) load /\
       wax_cost r = Float.mul (wax_oz r) wax_price /\
       fragrance_cost r = Float.mul (fragrance_oz r) fo_price /\
       total_material_cost r =
         Float.add (Float.add (wax_cost r) (fragrance_cost r)) wicks) /\
  (exists r,
     Scenario.standard_recipe = Ok r /\
     wax_oz r = Float.decimal 72 1 /\
     fragrance_oz r = Scenario.above_0_576 /\
     Float.le (Float.abs (Float.sub (fragrance_oz r) (Float.decimal 576 3)))
       (Float.decimal 1 15) = true /\
     Float.le
       (Float.abs (Float.sub (total_material_cost r) (Float.decimal 4486 3)))
       (Float.decimal 1 3) = true).
Proof.
  split.
  - intros water wax_price ratio load fo_price wicks.
    destruct (compute_results_ok water wax_price ratio load fo_price wicks)
      as (c & Hc & _).
    eexists. split; [exact Hc |].
    cbn [wax_oz fragrance_oz wax_cost fragrance_cost total_material_cost].
    repeat (split; [reflexivity |]). reflexivity.
  - eexists. split; [vm_compute; reflexivity |]. cbn [wax_oz fragrance_oz
      total_material_cost].
    split; [vm_compute; reflexivity |]. split; [vm_compute; reflexivity |].
    split; vm_compute; reflexivity.
Qed.

(** C1, as stated, fails on the standard recipe: the returned
    [fragrance_oz] is not the float 0.576. *)
Lemma C1_fragrance_oz_is_not_0_576 :
  exists r,
    Scenario.standard_recipe = Ok r /\
    Float.eqb (fragrance_oz r) (Float.decimal 576 3) = false.
Proof.
  eexists. split; [vm_compute; reflexivity |]. vm_compute. reflexivity.
Qed.

(** C4 (as amended).  [compute_results] raises no exception on any input,
    and [cost_per_wax_oz] is 0.0 whenever [wax_oz] is not above 0, which is
    the case for [water_oz <= 0] with a ratio [>= 0].  For [water_oz = 0]
    and a finite ratio and load, [wax_oz] and [fragrance_oz] are zero too.
    For [water_oz < 0] nothing is set to zero: as for every input, [wax_oz]
    is the float product [water_oz * ratio] and [fragrance_oz] the float
    product [wax_oz * load], and these are not always zero: for -1 oz with
    ratio 0.9 and load 0.08, [wax_oz] is -0.9 and [fragrance_oz] is not
    zero, while [cost_per_wax_oz] is 0.0. *)
Theorem C4_compute_results_nonpositive_water
  (water wax_price ratio load fo_price wicks : float) :
  (exists r,
     compute_results water wax_price ratio load fo_price wicks = Ok r /\
     (Float.gt (wax_oz r) Float.zero = false ->
      cost_per_wax_oz r = Float.zero) /\
     (Float.le water Float.zero = true -> Float.le Float.zero ratio = true ->
      Float.gt (wax_oz r) Float.zero = false /\
      cost_per_wax_oz r = Float.zero) /\
     (Float.eqb water Float.zero = true ->
      Float.is_finite ratio = true -> Float.is_finite load = true ->
      Float.eqb (wax_oz r) Float.zero = true /\
      Float.eqb (fragrance_oz r) Float.zero = true /\
      cost_per_wax_oz r = Float.zero) /\
     wax_oz r = Float.mul water ratio /\
     fragrance_oz r = Float.mul (Float.mul water ratio) load) /\
  (exists r,
     Scenario.negative_recipe = Ok r /\
     wax_oz r = Float.decimal (-9) 1 /\
     Float.eqb (wax_oz r) Float.zero = false /\
     Float.eqb (fragrance_oz r) Float.zero = false /\
     cost_per_wax_oz r = Float.zero).
Proof.
  split.
  - destruct (compute_results_ok water wax_price ratio load fo_price wicks)
      as (c & Hc & Hz).
    eexists. split; [exact Hc |].
    cbn [wax_oz fragrance_oz cost_per_wax_oz]. split; [exact Hz |].
    split; [| split; [| split; reflexivity]].
    + intros Hw Hr.
      pose proof (FloatFacts.mul_nonpos_nonneg _ _ Hw Hr) as G. auto.
    + intros Hw Fr Fl.
      pose proof (FloatFacts.mul_zero_l _ _ Hw Fr) as Z.
      split; [exact Z |]. split.
      * apply FloatFacts.mul_zero_l; [exact Z | exact Fl].
      * apply Hz, FloatFacts.le_not_gt, FloatFacts.eq_le, Z.
  - eexists. split; [vm_compute; reflexivity |].
    cbn [wax_oz fragrance_oz cost_per_wax_oz].
    split; [vm_compute; reflexivity |].
    split; [vm_compute; reflexivity |].
    split; vm_compute; reflexivity.
Qed.

Lemma C4_witness :
  exists r,
    compute_results Float.zero (Float.decimal 2189 4) (Float.decimal 90 2)
      (Float.decimal 8 2) (Float.decimal 250 2) (Float.decimal 147 2) = Ok r /\
    Float.eqb (wax_oz r) Float.zero = true /\
    Float.eqb (fragrance_oz r) Float.zero = true /\
    cost_per_wax_oz r = Float.zero.
Proof.
  destruct (C4_compute_results_nonpositive_water Float.zero
              (Float.decimal 2189 4) (Float.decimal 90 2) (Float.decimal 8 2)
              (Float.decimal 250 2) (Float.decimal 147 2))
    as [(r & Hr & _ & _ & H0 & _) _].
  exists r. split; [exact Hr |].
  apply H0; vm_compute; reflexivity.
Defined.

(** C4, as stated, fails for a negative [water_oz]: at -1 oz the returned
    [wax_oz] is -0.9, and neither it nor [fragrance_oz] is zero. *)
Lemma C4_negative_water_is_not_zeroed :
  Float.le (Float.of_Z (-1)) Float.zero = true /\
  exists r,
    Scenario.negative_recipe = Ok r /\
    wax_oz r = Float.decimal (-9) 1 /\
    Float.eqb (wax_oz r) Float.zero = false /\
    Float.eqb (fragrance_oz r) Float.zero = false.
Proof.
  split; [vm_compute; reflexivity |].
  eexists. split; [vm_compute; reflexivity |].
  cbn [wax_oz fragrance_oz].
  split; [vm_compute; reflexivity |].
  split; vm_compute; reflexivity.
Qed.

(** ** Blend engine *)

Section BlendCost.
Variable scents_dict : gmap string float.

Lemma known_contributions_cons (scent_key : string) (pct : float)
  (entries : list (string * float)) :
  spec_known_contributions scents_dict ((scent_key, pct) :: entries) =
  match scents_dict !! scent_key with
  | Some cost =>
      Float.mul (Float.div pct Float.hundred) cost
        :: spec_known_contributions scents_dict entries
  | None => spec_known_contributions scents_dict entries
  end.
Proof.
  unfold spec_known_contributions, spec_contribution. simpl.
  destruct (scents_dict !! scent_key); reflexivity.
Qed.

Lemma unknown_keys_cons (scent_key : string) (pct : float)
  (entries : list (string * float)) :
  spec_unknown_keys scents_dict ((scent_key, pct) :: entries) =
  match scents_dict !! scent_key with
  | Some _ => spec_unknown_keys scents_dict entries
  | None => scent_key :: spec_unknown_keys scents_dict entries
  end.
Proof.
  unfold spec_unknown_keys. simpl. rewrite filter_cons. simpl.
  destruct (scents_dict !! scent_key) eqn:E.
  - rewrite decide_False by discriminate. reflexivity.
  - rewrite decide_True by reflexivity. reflexivity.
Qed.

(** The loop adds the contributions of the known scents, in order, and
    appends one warning for each unknown scent. *)
Lemma blend_cost_loop (entries : list (string * float)) :
  forall (weighted_cost : float) (warnings : list warning),
    fold_left (blend_cost_step scents_dict) entries (weighted_cost, warnings)
    = (fold_left Float.add (spec_known_contributions scents_dict entries)
         weighted_cost,
       warnings ++ (ScentNotInList <$> spec_unknown_keys scents_dict entries)).
Proof.
  induction entries as [|[scent_key pct] entries IH]; intros weighted_cost ws.
  - simpl. rewrite app_nil_r. reflexivity.
  - rewrite known_contributions_cons, unknown_keys_cons. simpl.
    destruct (scents_dict !! scent_key) as [cost|]; rewrite IH; simpl.
    + reflexivity.
    + rewrite <- app_assoc. reflexivity.
Qed.

(** What [compute_blend_cost_from_definition] returns. *)
Lemma compute_blend_cost_eq (blend : blend_def) :
  let entries := blend_scents_of blend in
  let total_pct := Float.sum (ODict.values entries) in
  compute_blend_cost_from_definition scents_dict blend =
  (Float.sum (spec_known_contributions scents_dict entries),
   total_pct,
   (if Float.gt (Float.abs (Float.sub total_pct Float.hundred))
         Float.hundredth
    then [PercentsNot100 total_pct] else [])
   ++ (ScentNotInList <$> spec_unknown_keys scents_dict entries)).
Proof.
  intros entries total_pct. unfold compute_blend_cost_from_definition.
  fold entries. fold total_pct. rewrite blend_cost_loop. reflexivity.
Qed.

(** With every scent in the catalog, all contributions are defined and no
    key is unknown. *)
Lemma all_known (entries : list (string * float)) :
  Forall (fun k => is_Some (scents_dict !! k)) (ODict.keys entries) ->
  mapM (spec_contribution scents_dict) entries
    = Some (spec_known_contributions scents_dict entries) /\
  spec_unknown_keys scents_dict entries = [].
Proof.
  induction entries as [|[scent_key pct] entries IH]; intros H.
  - split; reflexivity.
  - inversion H as [|k ks [cost Hk] Hks]; subst.
    destruct (IH Hks) as [IH1 IH2].
    rewrite known_contributions_cons, unknown_keys_cons.
    change (mapM (spec_contribution scents_dict) ((scent_key, pct) :: entries))
      with (y ← spec_contribution scents_dict (scent_key, pct);
            k ← mapM (spec_contribution scents_dict) entries; mret (y :: k)).
    rewrite IH1. unfold spec_contribution. cbn [fst snd]. rewrite Hk.
    split; [reflexivity | exact IH2].
Qed.

(** An unknown scent changes neither the contributions nor the cost. *)
Lemma known_contributions_remove (scent_key : string)
  (entries : list (string * float)) :
  scents_dict !! scent_key = None ->
  spec_known_contributions scents_dict (ODict.remove scent_key entries)
  = spec_known_contributions scents_dict entries.
Proof.
  intros Hk. induction entries as [|[k pct] entries IH]; [reflexivity |].
  cbn [ODict.remove]. destruct (decide (scent_key = k)) as [<-|Hne].
  - rewrite known_contributions_cons, Hk. exact IH.
  - rewrite !known_contributions_cons, IH. reflexivity.
Qed.

Lemma unknown_key_listed (scent_key : string)
  (entries : list (string * float)) :
  scent_key ∈ ODict.keys entries -> scents_dict !! scent_key = None ->
  scent_key ∈ spec_unknown_keys scents_dict entries.
Proof.
  intros Hin Hk. unfold spec_unknown_keys.
  apply list_elem_of_filter. split; assumption.
Qed.

End BlendCost.

(** C2.  For a blend definition whose percentages sum to 100 within 0.01
    and whose scent keys are all in the catalog,
    [compute_blend_cost_from_definition] returns no warning and the weighted
    sum Σ (percent / 100 × catalog[scent]) over the entries as its cost. *)
Theorem C2_valid_blend_exact_cost
  (scents_dict : gmap string float) (blend : blend_def) :
  Float.le
    (Float.abs
       (Float.sub (Float.sum (ODict.values (blend_scents_of blend)))
          Float.hundred))
    Float.hundredth = true ->
  Forall (fun k => is_Some (scents_dict !! k))
    (ODict.keys (blend_scents_of blend)) ->
  exists cost,
    spec_weighted_sum scents_dict (blend_scents_of blend) = Some cost /\
    compute_blend_cost_from_definition scents_dict blend
    = (cost, Float.sum (ODict.values (blend_scents_of blend)), []).
Proof.
  intros Htotal Hkeys.
  destruct (all_known scents_dict _ Hkeys) as [Hsum Hunknown].
  exists (Float.sum (spec_known_contributions scents_dict
                       (blend_scents_of blend))).
  split.
  - unfold spec_weighted_sum. rewrite Hsum. reflexivity.
  - rewrite compute_blend_cost_eq, Hunknown.
    rewrite (FloatFacts.le_not_gt _ _ Htotal). reflexivity.
Qed.

Lemma C2_witness :
  exists cost,
    spec_weighted_sum Scenario.two_scents
      (blend_scents_of Scenario.blend_60_40) = Some cost /\
    compute_blend_cost_from_definition Scenario.two_scents
      Scenario.blend_60_40
    = (cost, Float.sum (ODict.values (blend_scents_of Scenario.blend_60_40)),
       []).
Proof.
  apply C2_valid_blend_exact_cost.
  - vm_compute. reflexivity.
  - repeat (constructor; [eexists; vm_compute; reflexivity |]). constructor.
Defined.

(** C3.  For a blend definition with a scent key that the catalog does not
    have, [compute_blend_cost_from_definition] returns a warning for that
    key, and a cost that is the sum of the contributions of the known
    scents only: the cost of the blend without that key.  The returned
    total is the sum of all declared percentages, whatever the catalog. *)
Theorem C3_unknown_scent_warned_and_skipped
  (scents_dict : gmap string float) (blend : blend_def) (scent_key : string) :
  scent_key ∈ ODict.keys (blend_scents_of blend) ->
  scents_dict !! scent_key = None ->
  exists cost warnings,
    compute_blend_cost_from_definition scents_dict blend
    = (cost, Float.sum (ODict.values (blend_scents_of blend)), warnings) /\
    ScentNotInList scent_key ∈ warnings /\
    warnings <> [] /\
    cost = Float.sum
             (spec_known_contributions scents_dict (blend_scents_of blend)) /\
    cost = (compute_blend_cost_from_definition scents_dict
              {| def_scents :=
                   Some (ODict.remove scent_key (blend_scents_of blend)) |}).1.1
    /\
    forall other_dict : gmap string float,
      (compute_blend_cost_from_definition other_dict blend).1.2
      = Float.sum (ODict.values (blend_scents_of blend)).
Proof.
  intros Hin Hk. rewrite compute_blend_cost_eq.
  eexists _, _. split; [reflexivity |].
  assert (Hw : ScentNotInList scent_key
               ∈ (if Float.gt
                       (Float.abs
                          (Float.sub
                             (Float.sum (ODict.values (blend_scents_of blend)))
                             Float.hundred)) Float.hundredth
                  then [PercentsNot100
                          (Float.sum (ODict.values (blend_scents_of blend)))]
                  else [])
                 ++ (ScentNotInList
                       <$> spec_unknown_keys scents_dict
                             (blend_scents_of blend))).
  { apply elem_of_app. right. apply list_elem_of_fmap_2.
    apply unknown_key_listed; assumption. }
  split; [exact Hw |]. split.
  - intros E. rewrite E in Hw. inversion Hw.
  - split; [reflexivity |]. split.
    + rewrite compute_blend_cost_eq. cbn [fst].
      change (blend_scents_of
                {| def_scents :=
                     Some (ODict.remove scent_key (blend_scents_of blend)) |})
        with (ODict.remove scent_key (blend_scents_of blend)).
      rewrite known_contributions_remove by exact Hk. reflexivity.
    + intros other_dict. rewrite compute_blend_cost_eq. reflexivity.
Qed.

Lemma C3_witness :
  exists cost warnings,
    compute_blend_cost_from_definition Scenario.two_scents
      Scenario.blend_with_unknown
    = (cost, Float.of_Z 100, warnings) /\
    ScentNotInList "pumpkin" ∈ warnings /\
    cost = Float.decimal 75 2.
Proof.
  destruct (C3_unknown_scent_warned_and_skipped Scenario.two_scents
              Scenario.blend_with_unknown "pumpkin")
    as (cost & warnings & Heq & Hw & _ & Hcost & _).
  - vm_compute. apply list_elem_of_further, list_elem_of_here.
  - vm_compute. reflexivity.
  - exists cost, warnings. split; [exact Heq |]. split; [exact Hw |].
    rewrite Hcost. vm_compute. reflexivity.
Defined.

(** C10.  For a blend definition whose total differs from 100 by more than
    0.01, [compute_blend_cost_from_definition] returns a non-empty list of
    warnings, headed by the warning about the total; when every scent key is
    in the catalog that warning is the only one. *)
Theorem C10_total_mismatch_is_warned
  (scents_dict : gmap string float) (blend : blend_def) :
  Float.gt
    (Float.abs
       (Float.sub (Float.sum (ODict.values (blend_scents_of blend)))
          Float.hundred))
    Float.hundredth = true ->
  exists cost total_pct warnings,
    compute_blend_cost_from_definition scents_dict blend
    = (cost, total_pct, PercentsNot100 total_pct :: warnings) /\
    (Forall (fun k => is_Some (scents_dict !! k))
       (ODict.keys (blend_scents_of blend)) ->
     warnings = []).
Proof.
  intros Htotal. rewrite compute_blend_cost_eq, Htotal.
  eexists _, _, _. split; [reflexivity |].
  intros Hkeys. destruct (all_known scents_dict _ Hkeys) as [_ ->].
  reflexivity.
Qed.

Lemma C10_witness :
  exists cost,
    compute_blend_cost_from_definition Scenario.two_scents
      Scenario.blend_60_30
    = (cost, Float.of_Z 90, [PercentsNot100 (Float.of_Z 90)]).
Proof.
  destruct (C10_total_mismatch_is_warned Scenario.two_scents
              Scenario.blend_60_30)
    as (cost & total_pct & warnings & Heq & Hnil).
  - vm_compute. reflexivity.
  - rewrite Hnil in Heq.
    + assert (Ht : (compute_blend_cost_from_definition Scenario.two_scents
                      Scenario.blend_60_30).1.2 = Float.of_Z 90)
        by (vm_compute; reflexivity).
      rewrite Heq in Ht. cbn [fst snd] in Ht. subst total_pct.
      exists cost. exact Heq.
    + repeat (constructor; [eexists; vm_compute; reflexivity |]).
      constructor.
Defined.

(** ** Insertion-ordered dictionaries *)

Module ODictFacts.
Section Facts.
Context {V : Type}.
Implicit Types (d : ODict.t V) (k : string) (v : V).

Lemma get_set_eq d k v : ODict.get k (ODict.set k v d) = Some v.
Proof.
  induction d as [|[k' v'] d IH]; simpl.
  - rewrite decide_True by reflexivity. reflexivity.
  - destruct (decide (k = k')) as [E|N]; simpl.
    + rewrite decide_True by exact E. reflexivity.
    + rewrite decide_False by exact N. exact IH.
Qed.

Lemma get_set_ne d k k' v :
  k <> k' -> ODict.get k (ODict.set k' v d) = ODict.get k d.
Proof.
  intros N. induction d as [|[k0 v0] d IH]; simpl.
  - rewrite decide_False by exact N. reflexivity.
  - destruct (decide (k' = k0)) as [E|N0]; simpl.
    + subst k0. rewrite !decide_False by exact N. reflexivity.
    + destruct (decide (k = k0)); [reflexivity | exact IH].
Qed.

Lemma get_None_keys d k : ODict.get k d = None <-> k ∉ ODict.keys d.
Proof.
  induction d as [|[k' v'] d IH]; simpl.
  - split; [intros _; apply not_elem_of_nil | reflexivity].
  - rewrite not_elem_of_cons. destruct (decide (k = k')) as [E|N].
    + split; [discriminate | intros [C _]; contradiction].
    + rewrite IH. tauto.
Qed.

Lemma keys_set d k v :
  ODict.keys (ODict.set k v d) =
  match ODict.get k d with
  | Some _ => ODict.keys d
  | None => ODict.keys d ++ [k]
  end.
Proof.
  induction d as [|[k' v'] d IH]; simpl; [reflexivity |].
  destruct (decide (k = k')); simpl; [reflexivity |].
  rewrite IH. destruct (ODict.get k d); reflexivity.
Qed.

Lemma NoDup_keys_set d k v :
  NoDup (ODict.keys d) -> NoDup (ODict.keys (ODict.set k v d)).
Proof.
  intros H. rewrite keys_set. destruct (ODict.get k d) eqn:E; [exact H |].
  apply NoDup_app. split; [exact H |]. split.
  - intros x Hx Hk. apply list_elem_of_singleton in Hk. subst x.
    apply get_None_keys in E. contradiction.
  - apply NoDup_singleton.
Qed.

Lemma get_alter_eq d k (f : V -> V) :
  ODict.get k (ODict.alter f k d) = f <$> ODict.get k d.
Proof.
  induction d as [|[k' v'] d IH]; simpl; [reflexivity |].
  destruct (decide (k = k')) as [E|N]; simpl.
  - rewrite decide_True by exact E. reflexivity.
  - rewrite decide_False by exact N. exact IH.
Qed.

Lemma get_alter_ne d k k' (f : V -> V) :
  k <> k' -> ODict.get k (ODict.alter f k' d) = ODict.get k d.
Proof.
  intros N. induction d as [|[k0 v0] d IH]; simpl; [reflexivity |].
  destruct (decide (k' = k0)) as [E|N0]; simpl.
  - subst k0. rewrite !decide_False by exact N. reflexivity.
  - destruct (decide (k = k0)); [reflexivity | exact IH].
Qed.

Lemma keys_alter d k (f : V -> V) :
  ODict.keys (ODict.alter f k d) = ODict.keys d.
Proof.
  induction d as [|[k' v'] d IH]; simpl; [reflexivity |].
  destruct (decide (k = k')); simpl; [reflexivity | now rewrite IH].
Qed.

(** Apart from the altered entry, the entries are the same ones, in the
    same places. *)
Lemma lookup_alter d k (f : V -> V) (i : nat) (k' : string) (v : V) :
  d !! i = Some (k', v) -> k' <> k -> ODict.alter f k d !! i = Some (k', v).
Proof.
  revert i. induction d as [|[k0 v0] d IH]; intros i Hi N; [discriminate |].
  simpl. destruct (decide (k = k0)) as [E|N0].
  - destruct i as [|i]; simpl in *; [| exact Hi].
    inversion Hi; subst. contradiction N. reflexivity.
  - destruct i as [|i]; simpl in *; [exact Hi | apply IH; assumption].
Qed.

End Facts.
End ODictFacts.

(** ** Building a blend from rows *)

Section RowsToBlend.
Import Float.

Lemma kept_percents_cons (key k : string) (pct : float)
  (rows : list (string * float)) :
  spec_kept_percents key ((k, pct) :: rows) =
  if decide (k = key) then
    if gt pct zero then pct :: spec_kept_percents key rows
    else spec_kept_percents key rows
  else spec_kept_percents key rows.
Proof.
  unfold spec_kept_percents. rewrite filter_cons. cbn [fst snd].
  destruct (decide (k = key)) as [E|N], (gt pct zero) eqn:G.
  - rewrite decide_True by (split; [exact E | reflexivity]). reflexivity.
  - rewrite decide_False by (intros [_ C]; discriminate). reflexivity.
  - rewrite decide_False by (intros [C _]; contradiction). reflexivity.
  - rewrite decide_False by (intros [C _]; contradiction). reflexivity.
Qed.

(** The entry of a key after the loop, from its entry before it. *)
Lemma get_fold_add_row (key : string) (rows : list (string * float)) :
  forall blend_scents : ODict.t float,
    ODict.get key (fold_left add_row rows blend_scents) =
    match ODict.get key blend_scents, spec_kept_percents key rows with
    | None, [] => None
    | None, ps => Some (sum ps)
    | Some v, ps => Some (fold_left add ps v)
    end.
Proof.
  induction rows as [|[k pct] rows IH]; intros d.
  - simpl. destruct (ODict.get key d); reflexivity.
  - cbn [fold_left]. rewrite IH, kept_percents_cons. unfold add_row.
    destruct (gt pct zero) eqn:G.
    + destruct (decide (k = key)) as [->|N].
      * rewrite ODictFacts.get_set_eq.
        destruct (ODict.get key d); reflexivity.
      * rewrite ODictFacts.get_set_ne by (intros C; apply N; now rewrite C).
        reflexivity.
    + destruct (decide (k = key)); reflexivity.
Qed.

Lemma NoDup_fold_add_row (rows : list (string * float)) :
  forall blend_scents : ODict.t float,
    NoDup (ODict.keys blend_scents) ->
    NoDup (ODict.keys (fold_left add_row rows blend_scents)).
Proof.
  induction rows as [|[k pct] rows IH]; intros d H; [exact H |].
  cbn [fold_left]. apply IH. unfold add_row.
  destruct (gt pct zero); [apply ODictFacts.NoDup_keys_set |]; exact H.
Qed.

(** A row whose percentage is [<= 0] adds nothing. *)
Lemma add_row_nonpositive (blend_scents : ODict.t float)
  (row : string * float) :
  le row.2 zero = true -> add_row blend_scents row = blend_scents.
Proof.
  destruct row as [k pct]. cbn [snd]. intros H. unfold add_row.
  fold (gt pct zero). rewrite (FloatFacts.le_not_gt _ _ H). reflexivity.
Qed.

End RowsToBlend.

(** C8.  [rows_to_blend], the loop of [build_new_blend] over the rows,
    drops every row whose percentage is [<= 0]; the entry of a scent key is
    the sum, in the order of the rows, of the percentages above 0 of the
    rows with that key, and there is no entry when there is no such row; no
    key has two entries. *)
Theorem C8_rows_to_blend (rows : list (string * float)) :
  (forall rows1 row rows2,
     rows = rows1 ++ row :: rows2 -> Float.le row.2 Float.zero = true ->
     rows_to_blend rows = rows_to_blend (rows1 ++ rows2)) /\
  (forall key,
     ODict.get key (rows_to_blend rows) =
     match spec_kept_percents key rows with
     | [] => None
     | ps => Some (Float.sum ps)
     end) /\
  NoDup (ODict.keys (rows_to_blend rows)).
Proof.
  split; [| split].
  - intros rows1 row rows2 -> H. unfold rows_to_blend.
    rewrite !fold_left_app. cbn [fold_left].
    rewrite add_row_nonpositive by exact H. reflexivity.
  - intros key. unfold rows_to_blend. rewrite get_fold_add_row. reflexivity.
  - apply NoDup_fold_add_row. constructor.
Qed.

Lemma C8_witness :
  rows_to_blend Scenario.rows_with_duplicate
  = rows_to_blend [("lavender", Float.of_Z 30); ("lavender", Float.of_Z 70)]
  /\ rows_to_blend Scenario.rows_with_duplicate
     = [("lavender", Float.of_Z 100)].
Proof.
  destruct (C8_rows_to_blend Scenario.rows_with_duplicate) as (Hdrop & _ & _).
  split.
  - apply (Hdrop [("lavender", Float.of_Z 30)] ("leather", Float.zero)
             [("lavender", Float.of_Z 70)]).
    + reflexivity.
    + vm_compute. reflexivity.
  - vm_compute. reflexivity.
Defined.

(** What [build_new_blend] returns, when it returns: the blend is the one
    built from the rows and the total is the sum of its percentages. *)
Lemma build_new_blend_returns (scents_dict : gmap string float)
  (rows : list (string * float)) (cost : option float) (total_pct : float)
  (blend_scents : ODict.t float) :
  build_new_blend scents_dict rows = Ok (cost, total_pct, blend_scents) ->
  blend_scents = rows_to_blend rows /\
  total_pct = Float.sum (ODict.values blend_scents).
Proof.
  unfold build_new_blend. destruct (rows_to_blend rows) as [|entry entries].
  - intros H. inversion H. split; reflexivity.
  - destruct (Float.gt _ _).
    + intros H. inversion H. split; reflexivity.
    + destruct (weighted_cost_of _ _ _) as [c|e]; intros H; inversion H.
      split; reflexivity.
Qed.

(** ** Inventory ledger *)

(** C9.  For an item of the inventory, [update_quantity] raises nothing and
    changes the quantity of that item to the new value; the other fields of
    the item, the other items, and the order of the items are unchanged. *)
Theorem C9_update_quantity_frame (inventory : ODict.t inventory_item)
  (item_id : string) (item : inventory_item) (new_qty : Z) :
  ODict.get item_id inventory = Some item ->
  exists inventory' item',
    update_quantity inventory item_id new_qty = Ok inventory' /\
    ODict.get item_id inventory' = Some item' /\
    quantity item' = new_qty /\
    (sku item', product_name item', container_id item', blend_name item',
     production_date item', batch_number item', material_cost item',
     container_cost item', target_price item', wick_config item',
     item_wax_oz item', item_fragrance_oz item', water_oz item', notes item')
    = (sku item, product_name item, container_id item, blend_name item,
       production_date item, batch_number item, material_cost item,
       container_cost item, target_price item, wick_config item,
       item_wax_oz item, item_fragrance_oz item, water_oz item, notes item) /\
    (forall other_id, other_id <> item_id ->
       ODict.get other_id inventory' = ODict.get other_id inventory) /\
    (forall (i : nat) other_id other,
       inventory !! i = Some (other_id, other) -> other_id <> item_id ->
       inventory' !! i = Some (other_id, other)) /\
    ODict.keys inventory' = ODict.keys inventory.
Proof.
  intros Hget. unfold update_quantity. rewrite Hget.
  exists (ODict.alter (set_quantity new_qty) item_id inventory),
    (set_quantity new_qty item).
  split; [reflexivity |]. split.
  - rewrite ODictFacts.get_alter_eq, Hget. reflexivity.
  - split; [reflexivity |]. split; [reflexivity |]. split; [| split].
    + intros other_id N. apply ODictFacts.get_alter_ne, N.
    + intros i other_id other Hi N. apply ODictFacts.lookup_alter; assumption.
    + apply ODictFacts.keys_alter.
Qed.

Lemma C9_witness :
  exists inventory',
    update_quantity Scenario.two_items "dcw-001_20251201_101500" 7
    = Ok inventory' /\
    quantity <$> ODict.get "dcw-001_20251201_101500" inventory' = Some 7 /\
    ODict.get "dcw-002_20251202_093000" inventory' = Some Scenario.item_b.
Proof.
  destruct (C9_update_quantity_frame Scenario.two_items
              "dcw-001_20251201_101500" Scenario.item_a 7)
    as (inventory' & item' & Heq & Hget & Hq & _ & Hother & _).
  - vm_compute. reflexivity.
  - exists inventory'. split; [exact Heq |]. split.
    + rewrite Hget. cbn [fmap option_fmap option_map]. rewrite Hq.
      reflexivity.
    + rewrite Hother by discriminate. vm_compute. reflexivity.
Defined.

Section Summary.

Lemma fold_left_Zadd (l : list Z) :
  forall a : Z, fold_left Z.add l a = a + foldr Z.add 0 l.
Proof.
  induction l as [|x l IH]; intros a; simpl; [lia |].
  rewrite IH. lia.
Qed.

Lemma float_of_int_Ok (n : Z) :
  raises (float_of_int n) = false -> float_of_int n = Ok (Float.of_Z n).
Proof.
  unfold float_of_int. destruct (Float.of_Z n); simpl;
    [reflexivity | discriminate | reflexivity | reflexivity].
Qed.

Lemma float_of_int_inv (n : Z) (f : float) :
  float_of_int n = Ok f -> f = Float.of_Z n.
Proof.
  unfold float_of_int. destruct (Float.of_Z n); intros H;
    inversion H; reflexivity.
Qed.

Lemma stock_value_inv (item : inventory_item) (v : float) :
  stock_value item = Ok v -> v = spec_item_value item.
Proof.
  unfold stock_value, spec_item_value.
  destruct (float_of_int (quantity item)) as [q|e] eqn:E; intros H;
    inversion H; subst.
  rewrite (float_of_int_inv _ _ E). reflexivity.
Qed.

Lemma stock_value_Ok (item : inventory_item) :
  raises (float_of_int (quantity item)) = false ->
  stock_value item = Ok (spec_item_value item).
Proof.
  intros H. unfold stock_value. rewrite (float_of_int_Ok _ H). reflexivity.
Qed.

(** Whenever the running sum ends, it is the sum of the specification. *)
Lemma sum_stock_values_inv (items : list inventory_item) :
  forall total t : float,
    sum_stock_values total items = Ok t ->
    t = fold_left Float.add (spec_item_value <$> items) total.
Proof.
  induction items as [|item items IH]; intros total t H.
  - inversion H. reflexivity.
  - cbn [sum_stock_values] in H.
    destruct (stock_value item) as [v|e] eqn:E; [| discriminate H].
    apply stock_value_inv in E. subst v. apply IH in H. exact H.
Qed.

(** It ends when every quantity converts. *)
Lemma sum_stock_values_Ok (items : list inventory_item) :
  quantities_convert items ->
  forall total : float,
    sum_stock_values total items
    = Ok (fold_left Float.add (spec_item_value <$> items) total).
Proof.
  induction 1 as [|item items Hq _ IH]; intros total; [reflexivity |].
  cbn [sum_stock_values]. rewrite (stock_value_Ok _ Hq). apply IH.
Qed.

Lemma total_quantity_spec (items : list inventory_item) :
  fold_left Z.add (map quantity items) 0 = spec_total_units items.
Proof. rewrite fold_left_Zadd. reflexivity. Qed.

End Summary.

(** C6.  The summary metrics of an inventory are the number of its items,
    the sum of the quantities and Σ quantity × (material_cost +
    container_cost), a missing container cost counting as 0: whenever the
    metrics are computed they are these, and they are computed whenever
    every quantity is within the range of [float].  The tab shows them for
    a non-empty inventory. *)
Theorem C6_inventory_summary (inventory : ODict.t inventory_item) :
  (forall s, summary_metrics inventory = Ok s -> s = spec_summary inventory)
  /\
  (quantities_convert (ODict.values inventory) ->
   summary_metrics inventory = Ok (spec_summary inventory) /\
   (inventory <> [] ->
    inventory_tab inventory = Ok (Some (spec_summary inventory)))).
Proof.
  split.
  - intros s H. unfold summary_metrics in H.
    destruct (sum_stock_values Float.zero (ODict.values inventory))
      as [t|e] eqn:E; [| discriminate H].
    apply sum_stock_values_inv in E. inversion H. subst.
    rewrite total_quantity_spec. reflexivity.
  - intros Hq.
    assert (E : summary_metrics inventory = Ok (spec_summary inventory)).
    { unfold summary_metrics. rewrite (sum_stock_values_Ok _ Hq).
      rewrite total_quantity_spec. reflexivity. }
    split; [exact E |]. intros Hne. unfold inventory_tab.
    destruct inventory; [contradiction | rewrite E; reflexivity].
Qed.

Lemma C6_witness :
  summary_metrics Scenario.two_items
  = Ok {| total_items := 2;
          total_quantity := 8;
          total_value := Float.of_Z 42 |}.
Proof.
  destruct (C6_inventory_summary Scenario.two_items) as [_ H].
  destruct H as [E _].
  - repeat (constructor; [vm_compute; reflexivity |]). constructor.
  - rewrite E. vm_compute. reflexivity.
Defined.

(** ** Names and keys *)

Module PyStrFacts.
Import PyStr.

Lemma lstrip_blank (s : string) : spec_blank (lstrip s) = spec_blank s.
Proof.
  induction s as [|c s IH]; simpl; [reflexivity |].
  destruct (is_space c) eqn:E; simpl; [exact IH | now rewrite E].
Qed.

Lemma rstrip_empty (s : string) :
  rstrip s = EmptyString <-> spec_blank s = true.
Proof.
  induction s as [|c s IH]; simpl; [tauto |].
  destruct (rstrip s) as [|c' r] eqn:R.
  - destruct (is_space c); simpl.
    + rewrite <- IH. tauto.
    + split; discriminate.
  - split; [discriminate |]. intros H.
    apply andb_true_iff in H. destruct H as [_ H].
    apply IH in H. discriminate H.
Qed.

(** [s.strip()] is empty exactly for a blank [s]. *)
Lemma strip_empty (s : string) :
  is_empty (strip s) = spec_blank s.
Proof.
  unfold strip. rewrite <- (lstrip_blank s).
  destruct (rstrip (lstrip s)) eqn:R; simpl.
  - symmetry. apply rstrip_empty, R.
  - destruct (spec_blank (lstrip s)) eqn:B; [| reflexivity].
    apply rstrip_empty in B. rewrite B in R. discriminate R.
Qed.

End PyStrFacts.

(** ** Saving a blend *)

(** C5 (as amended).  [save_blend] answers with a warning and leaves the
    blends unchanged when the name is blank, the blend is empty or the total
    differs from 100 by more than 0.01.  Otherwise it stores the definition
    under the name with the surrounding white space stripped, replacing
    what was stored under that key and nothing else. *)
Theorem C5_save_blend (blends : gmap string blend_def) (blend_name : string)
  (blend_scents : ODict.t float) (total_pct : float) :
  (spec_blank blend_name = true \/ blend_scents = [] \/
   Float.gt (Float.abs (Float.sub total_pct Float.hundred)) Float.hundredth
   = true ->
   exists msg,
     save_blend blends blend_name blend_scents total_pct
     = (blends, Warning msg)) /\
  (spec_blank blend_name = false -> blend_scents <> [] ->
   Float.gt (Float.abs (Float.sub total_pct Float.hundred)) Float.hundredth
   = false ->
   exists blends',
     save_blend blends blend_name blend_scents total_pct = (blends', Success)
     /\ blends' !! PyStr.strip blend_name
        = Some {| def_scents := Some blend_scents |}
     /\ forall other,
          other <> PyStr.strip blend_name ->
          blends' !! other = blends !! other).
Proof.
  unfold save_blend. rewrite PyStrFacts.strip_empty. split.
  - intros H. destruct (spec_blank blend_name); [eexists; reflexivity |].
    destruct blend_scents as [|entry entries]; [eexists; reflexivity |].
    destruct H as [H | [H | H]]; [discriminate H | discriminate H |].
    rewrite H. eexists; reflexivity.
  - intros Hname Hblend Htotal. rewrite Hname, Htotal.
    destruct blend_scents as [|entry entries]; [contradiction |].
    eexists. split; [reflexivity |]. split.
    + apply lookup_insert_eq.
    + intros other N. apply lookup_insert_ne. congruence.
Qed.

Lemma C5_witness :
  exists msg,
    save_blend ∅ "Signature" (blend_scents_of Scenario.blend_60_30)
      (Float.of_Z 90)
    = (∅, Warning msg).
Proof.
  destruct (C5_save_blend ∅ "Signature"
              (blend_scents_of Scenario.blend_60_30) (Float.of_Z 90))
    as [H _].
  apply H. right. right. vm_compute. reflexivity.
Defined.

(** C5, as stated, fails for a name with white space around it: the blend
    is stored under the stripped name, not under the given one. *)
Lemma C5_given_name_is_not_the_key :
  let saved :=
    save_blend ∅ " Signature " Scenario.all_lavender (Float.of_Z 100) in
  saved.2 = Success /\
  saved.1 !! " Signature " = None /\
  saved.1 !! "Signature" = Some {| def_scents := Some Scenario.all_lavender |}.
Proof.
  split; [vm_compute; reflexivity |].
  split; [vm_compute; reflexivity |]. vm_compute. reflexivity.
Qed.

(** ** Adding a custom scent *)

Section CustomScent.
Import Float FloatFacts.

(** A float that passes the test [x <= 0] as false is NaN or above 0. *)
Lemma not_le_zero (x : float) :
  le x zero = false -> is_nan x = true \/ gt x zero = true.
Proof.
  destruct x as [s|[]| |[] m e]; simpl; intros H;
    try discriminate H; auto.
Qed.

(** Such a divisor is not a zero: the division does not raise. *)
Lemma truediv_guarded (x y : float) :
  le y zero = false -> truediv x y = Ok (div x y).
Proof.
  intros H. unfold truediv. destruct (eqb y zero) eqn:E; [| reflexivity].
  apply eq_le in E. rewrite E in H. discriminate H.
Qed.

(** The quotient of two such floats is NaN or carries no sign bit. *)
Lemma div_guarded_sign (x y : float) :
  le x zero = false -> le y zero = false -> sign_is false (div x y).
Proof.
  intros Hx Hy.
  destruct (not_le_zero x Hx) as [Nx|Gx];
    [destruct x; try discriminate Nx; exact I |].
  destruct (not_le_zero y Hy) as [Ny|Gy];
    [destruct x, y; try discriminate Ny; exact I |].
  apply div_pos_sign; assumption.
Qed.

Lemma div_guarded_not_nan (x y : float) :
  le x zero = false -> le y zero = false ->
  is_finite x = true -> is_finite y = true -> is_nan (div x y) = false.
Proof.
  intros Hx Hy Fx Fy.
  destruct (not_le_zero x Hx) as [Nx|Gx];
    [destruct x; discriminate |].
  destruct (not_le_zero y Hy) as [Ny|Gy];
    [destruct y; discriminate |].
  apply div_pos_not_nan; assumption.
Qed.

End CustomScent.

(** C7 (as amended).  [add_custom_scent] answers with a warning and changes
    nothing when the name is blank or when the bottle size or the total cost
    is [<= 0].  Otherwise it raises nothing, derives the key from the name
    by stripping, lowercasing and replacing spaces with underscores, and
    stores [total_cost / bottle_oz] under that key in both dicts, replacing
    what was there and nothing else.  The stored cost is never below 0, and
    is [>= 0] for finite inputs; it can be 0. *)
Theorem C7_add_custom_scent (state : catalog) (name : string)
  (bottle_oz total_cost : float) :
  (spec_blank name = true \/ Float.le bottle_oz Float.zero = true \/
   Float.le total_cost Float.zero = true ->
   exists msg,
     add_custom_scent state name bottle_oz total_cost
     = Ok (state, Warning msg)) /\
  (spec_blank name = false -> Float.le bottle_oz Float.zero = false ->
   Float.le total_cost Float.zero = false ->
   exists state',
     add_custom_scent state name bottle_oz total_cost = Ok (state', Success)
     /\ scents state' !! spec_scent_key name
        = Some (Float.div total_cost bottle_oz)
     /\ custom_scents state' !! spec_scent_key name
        = Some (Float.div total_cost bottle_oz)
     /\ (forall other,
           other <> spec_scent_key name ->
           scents state' !! other = scents state !! other /\
           custom_scents state' !! other = custom_scents state !! other)
     /\ Float.ltb (Float.div total_cost bottle_oz) Float.zero = false
     /\ (Float.is_finite bottle_oz = true ->
         Float.is_finite total_cost = true ->
         Float.le Float.zero (Float.div total_cost bottle_oz) = true)).
Proof.
  unfold add_custom_scent. rewrite PyStrFacts.strip_empty. split.
  - intros H. destruct (spec_blank name); [eexists; reflexivity |].
    destruct H as [H | [H | H]]; [discriminate H | |];
      rewrite H; [| rewrite orb_true_r]; eexists; reflexivity.
  - intros Hname Hb Ht. rewrite Hname, Hb, Ht. cbn [orb].
    rewrite (truediv_guarded _ _ Hb).
    eexists. split; [reflexivity |]. cbn [scents custom_scents].
    fold (spec_scent_key name).
    split; [apply lookup_insert_eq |].
    split; [apply lookup_insert_eq |].
    split; [| split].
    + intros other N. split; apply lookup_insert_ne; congruence.
    + apply FloatFacts.positive_not_lt_zero, div_guarded_sign; assumption.
    + intros Fb Ft. apply FloatFacts.positive_ge_zero.
      * apply div_guarded_sign; assumption.
      * apply div_guarded_not_nan; assumption.
Qed.

Lemma C7_witness :
  exists state',
    add_custom_scent Scenario.no_scents " Pumpkin Spice" (Float.of_Z 16)
      (Float.decimal 3887 2)
    = Ok (state', Success) /\
    scents state' !! "pumpkin_spice"
    = Some (Float.div (Float.decimal 3887 2) (Float.of_Z 16)) /\
    Float.le Float.zero (Float.div (Float.decimal 3887 2) (Float.of_Z 16))
    = true.
Proof.
  destruct (C7_add_custom_scent Scenario.no_scents " Pumpkin Spice"
              (Float.of_Z 16) (Float.decimal 3887 2)) as [_ H].
  destruct H as (state' & Heq & Hs & _ & _ & _ & Hge);
    [vm_compute; reflexivity | vm_compute; reflexivity
    | vm_compute; reflexivity |].
  exists state'. split; [exact Heq |]. split; [exact Hs |].
  apply Hge; vm_compute; reflexivity.
Defined.

(** C7, as stated, fails when the quotient underflows: a total cost of
    5e-324 for a bottle of 2 oz passes the checks, and the cost per ounce
    stored is 0.0, which is not above 0. *)
Lemma C7_stored_cost_can_be_zero :
  let added :=
    add_custom_scent Scenario.no_scents "Rose" (Float.of_Z 2) Scenario.tiny in
  Float.gt (Float.of_Z 2) Float.zero = true /\
  Float.gt Scenario.tiny Float.zero = true /\
  (exists state',
     added = Ok (state', Success) /\
     scents state' !! "rose" = Some Float.zero) /\
  Float.gt Float.zero Float.zero = false.
Proof.
  split; [vm_compute; reflexivity |].
  split; [vm_compute; reflexivity |].
  split; [| vm_compute; reflexivity].
  eexists. split; [vm_compute; reflexivity |]. vm_compute. reflexivity.
Qed.

(** Scenario of the specification: the rows lavender 60 and leather 30 make
    a blend of total 90; saving it is refused and the blends stay as they
    were. *)
Example invalid_blend_is_not_saved :
  exists msg,
    create_and_save_blend Scenario.two_scents ∅
      (blend_scents_of Scenario.blend_60_30) "Signature"
    = Ok (∅, Warning msg).
Proof. eexists. vm_compute. reflexivity. Qed.

(** * Properties of the rest of the program *)

(** ** Keys derived from names *)

Module KeyFacts.
Import PyStr.

Lemma lower_char_not_space (c : ascii) :
  is_space c = false -> is_space (lower_char c) = false.
Proof.
  destruct c as [[] [] [] [] [] [] [] []]; vm_compute; intros H;
    congruence.
Qed.

Lemma lower_char_idem (c : ascii) : lower_char (lower_char c) = lower_char c.
Proof. destruct c as [[] [] [] [] [] [] [] []]; reflexivity. Qed.

Lemma underscore_not_space (c : ascii) :
  is_space c = false ->
  is_space (if Ascii.eqb c " " then "_"%char else c) = false.
Proof.
  intros H. destruct (Ascii.eqb_spec c " "); [reflexivity | exact H].
Qed.

Lemma lower_char_underscore (c : ascii) :
  lower_char (if Ascii.eqb c " " then "_"%char else c)
  = if Ascii.eqb (lower_char c) " " then "_"%char else lower_char c.
Proof. destruct c as [[] [] [] [] [] [] [] []]; reflexivity. Qed.

Lemma underscore_idem (c : ascii) :
  (if Ascii.eqb (if Ascii.eqb c " " then "_"%char else c) " "
   then "_"%char else (if Ascii.eqb c " " then "_"%char else c))
  = if Ascii.eqb c " " then "_"%char else c.
Proof. destruct (Ascii.eqb_spec c " "); [reflexivity |].
  destruct (Ascii.eqb_spec c " "); [contradiction | reflexivity]. Qed.

Lemma starts_clean_lstrip (s : string) : starts_clean (lstrip s).
Proof.
  induction s as [|c s IH]; simpl; [exact I |].
  destruct (is_space c) eqn:E; [exact IH | exact E].
Qed.

Lemma lstrip_clean (s : string) : starts_clean s -> lstrip s = s.
Proof. destruct s as [|c s]; simpl; [reflexivity |]. now intros ->. Qed.

Lemma starts_clean_rstrip (s : string) :
  starts_clean s -> starts_clean (rstrip s).
Proof.
  destruct s as [|c s]; simpl; [exact id |]. intros H.
  destruct (rstrip s); [rewrite H |]; exact H.
Qed.

Lemma rstrip_idem (s : string) : rstrip (rstrip s) = rstrip s.
Proof.
  induction s as [|c s IH]; simpl; [reflexivity |].
  destruct (rstrip s) as [|c' r] eqn:R.
  - destruct (is_space c) eqn:E; simpl; [reflexivity | now rewrite E].
  - simpl. simpl in IH.
    destruct (rstrip r) as [|c'' r'] eqn:R'.
    + destruct (is_space c') eqn:E'; [discriminate IH |].
      injection IH as <-. reflexivity.
    + rewrite IH. reflexivity.
Qed.

Section CharMap.
Variable f : ascii -> ascii.
Variable g : string -> string.
Hypothesis g_nil : g EmptyString = EmptyString.
Hypothesis g_cons : forall c s, g (String c s) = String (f c) (g s).
Hypothesis f_not_space : forall c, is_space c = false -> is_space (f c) = false.

Lemma starts_clean_map (s : string) : starts_clean s -> starts_clean (g s).
Proof.
  destruct s as [|c s]; [now rewrite g_nil |].
  rewrite g_cons. simpl. apply f_not_space.
Qed.

Lemma rstrip_map (s : string) : rstrip s = s -> rstrip (g s) = g s.
Proof.
  induction s as [|c s IH]; [now rewrite g_nil |].
  rewrite g_cons. simpl. destruct (rstrip s) as [|c' r] eqn:R.
  - destruct (is_space c) eqn:E; [discriminate |].
    intros H. injection H as <-. rewrite g_nil. simpl.
    now rewrite (f_not_space _ E).
  - intros H. injection H as H. rewrite H in IH.
    rewrite (IH eq_refl). destruct (g s) eqn:G; [| reflexivity].
    subst s. rewrite g_cons in G. discriminate G.
Qed.

End CharMap.

(** A stripped string is left alone by [strip]. *)
Lemma strip_fixed (s : string) :
  starts_clean s -> rstrip s = s -> strip s = s.
Proof. intros H1 H2. unfold strip. now rewrite (lstrip_clean _ H1). Qed.

Lemma strip_clean (s : string) :
  starts_clean (strip s) /\ rstrip (strip s) = strip s.
Proof.
  unfold strip. split.
  - apply starts_clean_rstrip, starts_clean_lstrip.
  - apply rstrip_idem.
Qed.

Lemma lower_replace (s : string) :
  lower (replace " " "_" s) = replace " " "_" (lower s).
Proof.
  induction s as [|c s IH]; simpl; [reflexivity |].
  now rewrite lower_char_underscore, IH.
Qed.

Lemma lower_idem (s : string) : lower (lower s) = lower s.
Proof.
  induction s as [|c s IH]; simpl; [reflexivity |].
  now rewrite lower_char_idem, IH.
Qed.

Lemma replace_idem (s : string) :
  replace " " "_" (replace " " "_" s) = replace " " "_" s.
Proof.
  induction s as [|c s IH]; simpl; [reflexivity |].
  now rewrite underscore_idem, IH.
Qed.

Lemma normalize_key_clean (name : string) :
  starts_clean (normalize_key name) /\
  rstrip (normalize_key name) = normalize_key name.
Proof.
  destruct (strip_clean name) as [H1 H2]. unfold normalize_key. split.
  - apply (starts_clean_map (fun c => if Ascii.eqb c " " then "_"%char else c)
             (replace " " "_"));
      [reflexivity | reflexivity | apply underscore_not_space |].
    apply (starts_clean_map lower_char lower);
      [reflexivity | reflexivity | apply lower_char_not_space | exact H1].
  - apply (rstrip_map (fun c => if Ascii.eqb c " " then "_"%char else c)
             (replace " " "_"));
      [reflexivity | reflexivity | apply underscore_not_space |].
    apply (rstrip_map lower_char lower);
      [reflexivity | reflexivity | apply lower_char_not_space | exact H2].
Qed.

End KeyFacts.

(** X1.  A derived key is in normal form: stripping it, lowercasing it or
    replacing its spaces changes nothing, so that deriving a key from a key
    gives the key back.  (A scent, a container or a SKU entered by its key
    meets the entry it names.) *)
Theorem normalize_key_normal_form (name : string) :
  PyStr.strip (normalize_key name) = normalize_key name /\
  PyStr.lower (normalize_key name) = normalize_key name /\
  PyStr.replace " " "_" (normalize_key name) = normalize_key name /\
  normalize_key (normalize_key name) = normalize_key name.
Proof.
  destruct (KeyFacts.normalize_key_clean name) as [H1 H2].
  pose proof (KeyFacts.strip_fixed _ H1 H2) as Hs.
  assert (Hl : PyStr.lower (normalize_key name) = normalize_key name).
  { unfold normalize_key.
    now rewrite KeyFacts.lower_replace, KeyFacts.lower_idem. }
  assert (Hr : PyStr.replace " " "_" (normalize_key name)
               = normalize_key name).
  { unfold normalize_key. apply KeyFacts.replace_idem. }
  repeat split; try assumption.
  unfold normalize_key at 1. now rewrite Hs, Hl, Hr.
Qed.

(** ** Deleting from a dictionary *)

Module ODictRemove.
Section Facts.
Context {V : Type}.
Implicit Types (d : ODict.t V) (k : string) (v : V).

Lemma get_remove_eq d k : ODict.get k (ODict.remove k d) = None.
Proof.
  induction d as [|[k' v'] d IH]; simpl; [reflexivity |].
  destruct (decide (k = k')) as [E|N]; simpl; [exact IH |].
  rewrite decide_False by exact N. exact IH.
Qed.

Lemma get_remove_ne d k k' :
  k <> k' -> ODict.get k (ODict.remove k' d) = ODict.get k d.
Proof.
  intros N. induction d as [|[k0 v0] d IH]; simpl; [reflexivity |].
  destruct (decide (k' = k0)) as [E|N0]; simpl.
  - subst k0. rewrite decide_False by exact N. exact IH.
  - destruct (decide (k = k0)); [reflexivity | exact IH].
Qed.

Lemma remove_absent d k : ODict.get k d = None -> ODict.remove k d = d.
Proof.
  induction d as [|[k' v'] d IH]; simpl; [reflexivity |].
  destruct (decide (k = k')); [discriminate |].
  intros H. now rewrite IH.
Qed.

(** Storing under a new key and deleting it again gives the dictionary
    back. *)
Lemma remove_set_fresh d k v :
  ODict.get k d = None -> ODict.remove k (ODict.set k v d) = d.
Proof.
  induction d as [|[k' v'] d IH]; simpl.
  - rewrite decide_True by reflexivity. reflexivity.
  - destruct (decide (k = k')) as [E|N]; [discriminate |].
    intros H. simpl. rewrite decide_False by exact N. now rewrite IH.
Qed.

Lemma set_fresh d k v :
  ODict.get k d = None -> ODict.set k v d = d ++ [(k, v)].
Proof.
  induction d as [|[k' v'] d IH]; simpl; [reflexivity |].
  destruct (decide (k = k')); [discriminate |].
  intros H. now rewrite IH.
Qed.

Lemma length_set d k v :
  length (ODict.set k v d) =
  match ODict.get k d with
  | Some _ => length d
  | None => S (length d)
  end.
Proof.
  induction d as [|[k' v'] d IH]; simpl; [reflexivity |].
  destruct (decide (k = k')); simpl; [reflexivity |].
  rewrite IH. destruct (ODict.get k d); reflexivity.
Qed.

(** With distinct keys, deleting a present key removes one entry. *)
Lemma length_remove d k v :
  NoDup (ODict.keys d) -> ODict.get k d = Some v ->
  S (length (ODict.remove k d)) = length d.
Proof.
  induction d as [|[k' v'] d IH]; simpl; [discriminate |].
  intros Hnd Hget. apply NoDup_cons in Hnd. destruct Hnd as [Hnotin Hnd].
  destruct (decide (k = k')) as [->|N].
  - rewrite remove_absent; [reflexivity |].
    apply ODictFacts.get_None_keys. exact Hnotin.
  - simpl. f_equal. apply IH; assumption.
Qed.

(** The entries that stay keep their order. *)
Lemma remove_filter (d : list (string * V)) k :
  ODict.remove k d = filter (fun entry => entry.1 <> k) d.
Proof.
  induction d as [|[k' v'] d IH]; [reflexivity |].
  cbn [ODict.remove]. rewrite filter_cons. cbn [fst].
  destruct (decide (k = k')) as [->|N].
  - rewrite decide_False by (intros C; now apply C). exact IH.
  - rewrite decide_True by (intros C; now apply N). now rewrite IH.
Qed.

End Facts.
End ODictRemove.

(** ** Containers *)

(** X2.  [add_container] answers with a warning and leaves the containers as
    they are when the name is blank or the water capacity is [<= 0].
    Otherwise it stores the container, whatever its cost, under the key
    derived from its name: a container already stored under that key is
    replaced where it stands, a new one goes last, and the other containers
    are unchanged. *)
Theorem add_container_spec (containers : ODict.t Container.t)
  (container_name : string) (capacity_water_oz : float)
  (supplier shape : string) (cost_per_unit : float) (notes : string) :
  (spec_blank container_name = true \/
   Float.le capacity_water_oz Float.zero = true ->
   exists msg,
     add_container containers container_name capacity_water_oz supplier
       shape cost_per_unit notes
     = (containers, Warning msg)) /\
  (spec_blank container_name = false ->
   Float.le capacity_water_oz Float.zero = false ->
   exists containers' container,
     add_container containers container_name capacity_water_oz supplier
       shape cost_per_unit notes
     = (containers', Success) /\
     ODict.get (normalize_key container_name) containers' = Some container /\
     Container.name container = PyStr.strip container_name /\
     Container.capacity_water_oz container = capacity_water_oz /\
     Container.cost_per_unit container = cost_per_unit /\
     (forall other,
        other <> normalize_key container_name ->
        ODict.get other containers' = ODict.get other containers) /\
     ODict.keys containers' =
     match ODict.get (normalize_key container_name) containers with
     | Some _ => ODict.keys containers
     | None => ODict.keys containers ++ [normalize_key container_name]
     end).
Proof.
  unfold add_container. rewrite PyStrFacts.strip_empty. split.
  - intros H. destruct (spec_blank container_name); [eexists; reflexivity |].
    destruct H as [H | H]; [discriminate H |].
    rewrite H. eexists; reflexivity.
  - intros Hname Hcap. rewrite Hname, Hcap.
    eexists _, _. split; [reflexivity |].
    split; [apply ODictFacts.get_set_eq |].
    split; [reflexivity |]. split; [reflexivity |]. split; [reflexivity |].
    split.
    + intros other N. apply ODictFacts.get_set_ne, N.
    + apply ODictFacts.keys_set.
Qed.

Lemma add_container_witness :
  exists containers',
    add_container Cases.one_jar " 8oz Amber " (Float.of_Z 8) EmptyString
      "Round" Float.zero EmptyString
    = (containers', Success) /\
    ODict.keys containers' = ["8oz_amber"].
Proof.
  destruct (add_container_spec Cases.one_jar " 8oz Amber " (Float.of_Z 8)
              EmptyString "Round" Float.zero EmptyString) as [_ H].
  destruct H as (containers' & container & Heq & _ & _ & _ & _ & _ & Hkeys);
    [vm_compute; reflexivity | vm_compute; reflexivity |].
  exists containers'. split; [exact Heq |]. rewrite Hkeys.
  vm_compute. reflexivity.
Defined.

(** X3.  Deleting a container raises [KeyError] when the id is not stored.
    Otherwise the container is gone and the others stay; nothing is done to
    the inventory, so that an item made with the deleted container shows
    "Unknown" as its container, and every other item shows what it showed. *)
Theorem delete_container_spec (containers : ODict.t Container.t)
  (deleted_id : string) :
  (ODict.get deleted_id containers = None ->
   delete_container containers deleted_id = Raise (KeyError deleted_id))
  /\
  (forall container,
     ODict.get deleted_id containers = Some container ->
     exists containers',
       delete_container containers deleted_id = Ok containers' /\
       ODict.get deleted_id containers' = None /\
       (forall other,
          other <> deleted_id ->
          ODict.get other containers' = ODict.get other containers) /\
       (forall item,
          container_display_name containers' item =
          if decide (container_id item = deleted_id) then "Unknown"
          else container_display_name containers item)).
Proof.
  unfold delete_container, py_del. split.
  - intros H. now rewrite H.
  - intros container H. rewrite H. eexists. split; [reflexivity |].
    split; [apply ODictRemove.get_remove_eq |]. split.
    + intros other N. apply ODictRemove.get_remove_ne, N.
    + intros item. unfold container_display_name.
      destruct (decide (container_id item = deleted_id)) as [->|N].
      * now rewrite ODictRemove.get_remove_eq.
      * now rewrite ODictRemove.get_remove_ne.
Qed.

Lemma delete_container_witness :
  exists containers',
    delete_container Cases.one_jar "8oz_amber" = Ok containers' /\
    container_display_name containers' Scenario.item_a = "Unknown".
Proof.
  destruct (delete_container_spec Cases.one_jar "8oz_amber") as [_ H].
  destruct (H Cases.jar) as (containers' & Heq & _ & _ & Hname);
    [vm_compute; reflexivity |].
  exists containers'. split; [exact Heq |]. rewrite Hname.
  vm_compute. reflexivity.
Defined.

(** ** Session state *)

(** X4.  On a new session, [init_session_state] merges the scents of the
    file over the built-in ones: a key of the file has the cost of the
    file, any other key its built-in cost.  The scents it tracks as custom
    are those of the file whose key is not built in: a cost of the file
    that overrides a built-in scent is used but is not tracked as custom.
    Every custom scent is among the scents. *)
Theorem init_session_state_catalog (disk : files) :
  exists all_scents customs : gmap string float,
    Session.scents (init_session_state disk Session.fresh) = Some all_scents
    /\
    Session.custom_scents (init_session_state disk Session.fresh)
    = Some customs /\
    (forall key,
       all_scents !! key =
       match scents_file disk !! key with
       | Some cost => Some cost
       | None => BASE_SCENTS !! key
       end) /\
    (forall key,
       customs !! key =
       match BASE_SCENTS !! key with
       | Some _ => None
       | None => scents_file disk !! key
       end) /\
    customs ⊆ all_scents.
Proof.
  eexists _, _. split; [reflexivity |]. split; [reflexivity |].
  split; [| split].
  - intros key. cbn [Session.scents Session.fresh]. rewrite lookup_union.
    destruct (scents_file disk !! key), (BASE_SCENTS !! key); reflexivity.
  - intros key. cbn [Session.scents Session.custom_scents Session.fresh].
    rewrite map_lookup_filter, lookup_union. cbn [fst].
    destruct (BASE_SCENTS !! key) as [b|] eqn:B.
    + destruct (scents_file disk !! key); reflexivity.
    + destruct (scents_file disk !! key); reflexivity.
  - apply map_filter_subseteq.
Qed.

(** X5.  [init_session_state] sets only what the session does not have:
    whatever the files hold, a second call changes nothing, and scents,
    blends, containers and items already in the session are kept. *)
Theorem init_session_state_keeps (disk disk' : files) (state : Session.t) :
  init_session_state disk' (init_session_state disk state)
  = init_session_state disk state /\
  (forall x, Session.scents state = Some x ->
     Session.scents (init_session_state disk state) = Some x) /\
  (forall x, Session.custom_scents state = Some x ->
     Session.custom_scents (init_session_state disk state) = Some x) /\
  (forall x, Session.blends state = Some x ->
     Session.blends (init_session_state disk state) = Some x) /\
  (forall x, Session.containers state = Some x ->
     Session.containers (init_session_state disk state) = Some x) /\
  (forall x, Session.inventory state = Some x ->
     Session.inventory (init_session_state disk state) = Some x).
Proof.
  split; [reflexivity |].
  unfold init_session_state. cbn [Session.scents Session.custom_scents
    Session.blends Session.containers Session.inventory].
  repeat split; intros x ->; reflexivity.
Qed.

Lemma init_session_state_keeps_witness :
  Session.inventory
    (init_session_state Cases.disk
       {| Session.scents := None; Session.custom_scents := None;
          Session.wicks := None; Session.blends := None;
          Session.containers := None; Session.inventory := Some [] |})
  = Some [].
Proof.
  destruct (init_session_state_keeps Cases.disk Cases.disk
              {| Session.scents := None; Session.custom_scents := None;
                 Session.wicks := None; Session.blends := None;
                 Session.containers := None; Session.inventory := Some [] |})
    as (_ & _ & _ & _ & _ & H).
  apply H. reflexivity.
Defined.

(** X6.  [add_custom_scent] keeps the custom scents among the scents, with
    the same costs. *)
Theorem add_custom_scent_keeps_subset (state state' : catalog)
  (name : string) (bottle_oz total_cost : float) (shown : feedback) :
  custom_scents state ⊆ scents state ->
  add_custom_scent state name bottle_oz total_cost = Ok (state', shown) ->
  custom_scents state' ⊆ scents state'.
Proof.
  intros Hsub. unfold add_custom_scent.
  destruct (PyStr.is_empty _); [intros H; inversion H; subst; exact Hsub |].
  destruct (_ || _); [intros H; inversion H; subst; exact Hsub |].
  destruct (truediv total_cost bottle_oz) as [cost|e]; [| discriminate].
  intros H. inversion H; subst. cbn [scents custom_scents].
  apply insert_mono, Hsub.
Qed.

Lemma add_custom_scent_keeps_subset_witness :
  match
    add_custom_scent Scenario.no_scents "Rose" (Float.of_Z 2) (Float.of_Z 9)
  with
  | Ok (state', _) => custom_scents state' ⊆ scents state'
  | Raise _ => False
  end.
Proof.
  destruct (add_custom_scent Scenario.no_scents "Rose" (Float.of_Z 2)
              (Float.of_Z 9)) as [[state' shown]|e] eqn:E.
  - apply (add_custom_scent_keeps_subset Scenario.no_scents state' "Rose"
             (Float.of_Z 2) (Float.of_Z 9) shown); [| exact E].
    apply map_empty_subseteq.
  - vm_compute in E. discriminate E.
Defined.

(** ** Wicks *)

Section Wicks.
Variable count_input : string -> Z.

Lemma float_of_int_small (n : Z) :
  0 <= n <= 10 -> float_of_int n = Ok (Float.of_Z n).
Proof.
  intros [Hlo Hhi]. rewrite <- (Z2Nat.id n Hlo).
  assert (Hk : (Z.to_nat n <= 10)%nat) by lia.
  generalize dependent (Z.to_nat n). clear.
  intros k Hk.
  do 11 (destruct k as [|k]; [reflexivity |]). lia.
Qed.

Lemma choose_wicks_loop_spec (items : list (string * float)) :
  forall (total : float) (counts : ODict.t Z),
    Forall (fun name => 0 <= count_input name <= 10) (ODict.keys items) ->
    NoDup (ODict.keys counts ++ ODict.keys items) ->
    choose_wicks_loop count_input items total counts =
    Ok (fold_left Float.add
          ((fun wick => Float.mul (Float.of_Z (count_input wick.1)) wick.2)
             <$> items) total,
        counts ++ ((fun wick => (wick.1, count_input wick.1)) <$> items)).
Proof.
  induction items as [|[name cost] items IH]; intros total counts Hb Hnd.
  - simpl. now rewrite app_nil_r.
  - cbn [choose_wicks_loop]. apply Forall_cons in Hb. destruct Hb as [Hn Hb].
    cbn [fst] in Hn.
    rewrite (float_of_int_small _ Hn). cbn [mbind result_bind].
    assert (Hfresh : ODict.get name counts = None).
    { apply ODictFacts.get_None_keys. intros Hin.
      apply NoDup_app in Hnd. destruct Hnd as (_ & Hdis & _).
      apply (Hdis name Hin). simpl. left. }
    rewrite (ODictRemove.set_fresh _ _ _ Hfresh).
    rewrite IH; [| exact Hb |].
    + cbn [fmap list_fmap fold_left fst snd]. rewrite <- app_assoc.
      reflexivity.
    + unfold ODict.keys in *. rewrite map_app, <- app_assoc. exact Hnd.
Qed.

Lemma choose_wicks_loop_zero (items : list (string * float)) :
  forall counts : ODict.t Z,
    Forall (fun name => count_input name = 0) (ODict.keys items) ->
    Forall (fun cost => Float.is_finite cost = true) (ODict.values items) ->
    exists counts',
      choose_wicks_loop count_input items Float.zero counts
      = Ok (Float.zero, counts').
Proof.
  induction items as [|[name cost] items IH]; intros counts Hz Hf.
  - eexists. reflexivity.
  - cbn [choose_wicks_loop]. apply Forall_cons in Hz. destruct Hz as [Hn Hz].
    apply Forall_cons in Hf. destruct Hf as [Hc Hf]. cbn [fst snd] in Hn, Hc.
    rewrite Hn.
    change (float_of_int 0) with (Ok Float.zero). cbn [mbind result_bind].
    assert (E : Float.add Float.zero (Float.mul Float.zero cost)
                = Float.zero).
    { destruct cost as [[]|[]| |[] m e]; try discriminate Hc; reflexivity. }
    rewrite E. apply IH; assumption.
Qed.

End Wicks.

(** X7.  With a count between 0 and 10 for each wick (what the number
    inputs return), [choose_wicks] raises nothing; the total is the sum, in
    the order of the wicks, of count × cost, and the counts returned are
    those of the inputs, one for each wick in the same order. *)
Theorem choose_wicks_spec (wicks_dict : ODict.t float)
  (count_input : string -> Z) :
  NoDup (ODict.keys wicks_dict) ->
  Forall (fun name => 0 <= count_input name <= 10) (ODict.keys wicks_dict) ->
  choose_wicks wicks_dict count_input =
  Ok (Float.sum
        ((fun wick => Float.mul (Float.of_Z (count_input wick.1)) wick.2)
           <$> wicks_dict),
      (fun wick => (wick.1, count_input wick.1)) <$> wicks_dict).
Proof.
  intros Hnd Hb. unfold choose_wicks.
  rewrite choose_wicks_loop_spec; [reflexivity | exact Hb | exact Hnd].
Qed.

Lemma choose_wicks_spec_witness :
  exists total counts,
    choose_wicks BASE_WICKS Cases.one_wood_wick = Ok (total, counts) /\
    ODict.get "wood_30mm" counts = Some 1 /\
    ODict.get "cdn12" counts = Some 0 /\
    ODict.get "wood_30mm" BASE_WICKS = Some total.
Proof.
  eexists _, _. split.
  - apply choose_wicks_spec.
    + apply (bool_decide_unpack _). vm_compute. reflexivity.
    + repeat (constructor; [vm_compute; split; discriminate |]). constructor.
  - split; [vm_compute; reflexivity |]. split; vm_compute; reflexivity.
Defined.

(** X8.  With every count at 0 and finite costs, the total wick cost is
    exactly 0.0: it is not above 0 and no total is shown. *)
Theorem choose_wicks_none (wicks_dict : ODict.t float)
  (count_input : string -> Z) :
  Forall (fun name => count_input name = 0) (ODict.keys wicks_dict) ->
  Forall (fun cost => Float.is_finite cost = true) (ODict.values wicks_dict)
  ->
  exists wick_counts,
    choose_wicks wicks_dict count_input = Ok (Float.zero, wick_counts) /\
    Float.gt Float.zero Float.zero = false.
Proof.
  intros Hz Hf. unfold choose_wicks.
  destruct (choose_wicks_loop_zero count_input wicks_dict [] Hz Hf)
    as [counts' E].
  exists counts'. split; [exact E | reflexivity].
Qed.

Lemma choose_wicks_none_witness :
  exists wick_counts,
    choose_wicks BASE_WICKS Cases.no_wicks = Ok (Float.zero, wick_counts).
Proof.
  destruct (choose_wicks_none BASE_WICKS Cases.no_wicks) as [counts [E _]].
  - repeat (constructor; [reflexivity |]). constructor.
  - repeat (constructor; [vm_compute; reflexivity |]). constructor.
  - exists counts. exact E.
Defined.

(** ** Saving to the inventory *)

Section Strings.

Lemma prefix_append (p r : string) : String.prefix p (p +:+ r) = true.
Proof.
  induction p as [|c p IH]; simpl; [now destruct r |].
  destruct (ascii_dec c c); [exact IH | contradiction].
Qed.

Lemma prefix_inv (p : string) :
  forall s, String.prefix p s = true -> exists r, s = p +:+ r.
Proof.
  induction p as [|c p IH]; intros s H.
  - exists s. reflexivity.
  - destruct s as [|c' s]; simpl in H; [discriminate |].
    destruct (ascii_dec c c') as [<-|]; [| discriminate].
    destruct (IH s H) as [r ->]. exists r. reflexivity.
Qed.

End Strings.

(** X9.  The blend name of the inventory form undoes the source that
    [use_saved_blend] builds: for the source of a saved blend it is the name
    of that blend, also when the name has a colon in it; for every other
    source it is "Custom Blend"; the index [1] never fails. *)
Theorem blend_name_of_source_round_trip :
  (forall name, blend_name_of_source ("saved:" +:+ name) = Some name) /\
  (forall source,
     String.prefix "saved:" source = false ->
     blend_name_of_source source = Some "Custom Blend") /\
  (forall source, is_Some (blend_name_of_source source)) /\
  (forall scents_dict blends selected cost source,
     use_saved_blend scents_dict blends selected = Ok (Some cost, source) ->
     blend_name_of_source source = Some selected).
Proof.
  assert (H1 : forall name,
             blend_name_of_source ("saved:" +:+ name) = Some name).
  { intros name. unfold blend_name_of_source.
    rewrite prefix_append. reflexivity. }
  split; [exact H1 |]. split; [| split].
  - intros source H. unfold blend_name_of_source. now rewrite H.
  - intros source. destruct (String.prefix "saved:" source) eqn:P.
    + destruct (prefix_inv _ _ P) as [r ->]. rewrite H1. eexists; reflexivity.
    + unfold blend_name_of_source. rewrite P. eexists; reflexivity.
  - intros scents_dict blends selected cost source. unfold use_saved_blend.
    destruct (_ =? _)%nat; [discriminate |].
    destruct (blends !! selected) as [blend|]; [| discriminate].
    destruct (compute_blend_cost_from_definition _ _) as [[c t] w].
    destruct (def_scents blend); [| discriminate].
    destruct (_ && _); intros H; inversion H. apply H1.
Qed.

Lemma blend_name_of_source_witness :
  blend_name_of_source "new_blend" = Some "Custom Blend".
Proof.
  destruct blend_name_of_source_round_trip as (_ & H & _).
  apply H. reflexivity.
Defined.

(** X10.  [save_to_inventory] answers with a warning and leaves the
    inventory as it is when the SKU or the product name is blank.
    Otherwise it raises [KeyError] when the selected container is not
    stored, and else stores the item under the key of the SKU followed by
    "_" and the timestamp, with the quantity of the form and the material
    cost and the container cost of the moment.  The other items are
    unchanged; an item already stored under that id (same SKU in the same
    second) is replaced, and the number of items grows only for a new id. *)
Theorem save_to_inventory_spec (containers : ODict.t Container.t)
  (inventory : ODict.t inventory_item) (recipe : results)
  (blend : string) (wick_counts : ODict.t Z) (jar_water_oz : float)
  (form : inventory_form) (timestamp : string) :
  (spec_blank (form_sku form) = true \/
   spec_blank (form_product_name form) = true ->
   exists msg,
     save_to_inventory containers inventory recipe blend wick_counts
       jar_water_oz form timestamp
     = Ok (inventory, Warning msg)) /\
  (spec_blank (form_sku form) = false ->
   spec_blank (form_product_name form) = false ->
   ODict.get (form_container_id form) containers = None ->
   save_to_inventory containers inventory recipe blend wick_counts
     jar_water_oz form timestamp
   = Raise (KeyError (form_container_id form))) /\
  (forall container,
     spec_blank (form_sku form) = false ->
     spec_blank (form_product_name form) = false ->
     ODict.get (form_container_id form) containers = Some container ->
     exists inventory' item,
       save_to_inventory containers inventory recipe blend wick_counts
         jar_water_oz form timestamp
       = Ok (inventory', Success) /\
       ODict.get (item_id_of form timestamp) inventory' = Some item /\
       sku item = PyStr.strip (form_sku form) /\
       quantity item = form_quantity form /\
       material_cost item = total_material_cost recipe /\
       container_cost item = Some (Container.cost_per_unit container) /\
       blend_name item = blend /\
       (forall other,
          other <> item_id_of form timestamp ->
          ODict.get other inventory' = ODict.get other inventory) /\
       length inventory' =
       match ODict.get (item_id_of form timestamp) inventory with
       | Some _ => length inventory
       | None => S (length inventory)
       end).
Proof.
  unfold save_to_inventory. rewrite !PyStrFacts.strip_empty.
  fold (item_id_of form timestamp). split; [| split].
  - intros H. destruct (spec_blank (form_sku form)); [eexists; reflexivity |].
    destruct H as [H | H]; [discriminate H |]. rewrite H.
    eexists; reflexivity.
  - intros -> -> ->. reflexivity.
  - intros container -> -> ->. eexists _, _. split; [reflexivity |].
    split; [apply ODictFacts.get_set_eq |].
    do 5 (split; [reflexivity |]). split.
    + intros other N. apply ODictFacts.get_set_ne, N.
    + apply ODictRemove.length_set.
Qed.

Lemma save_to_inventory_witness :
  exists msg,
    save_to_inventory Cases.one_jar Scenario.two_items Cases.recipe
      "Custom Blend" [] (Float.of_Z 8)
      {| form_sku := "  "; form_product_name := "Leather - 8oz";
         form_container_id := "8oz_amber"; form_quantity := 4;
         form_production_date := "2025-12-03"; form_batch_number := "B003";
         form_target_price := Float.of_Z 25; form_notes := EmptyString |}
      "20251203_100000"
    = Ok (Scenario.two_items, Warning msg).
Proof.
  destruct (save_to_inventory_spec Cases.one_jar Scenario.two_items
              Cases.recipe "Custom Blend" [] (Float.of_Z 8)
              {| form_sku := "  "; form_product_name := "Leather - 8oz";
                 form_container_id := "8oz_amber"; form_quantity := 4;
                 form_production_date := "2025-12-03";
                 form_batch_number := "B003";
                 form_target_price := Float.of_Z 25;
                 form_notes := EmptyString |}
              "20251203_100000") as [H _].
  apply H. left. reflexivity.
Defined.

(** ** Deleting and counting items *)

(** X11.  Deleting an item that is stored removes that item and no other,
    the items that stay keeping their order; deleting it once more, or
    deleting any id that is not stored, raises [KeyError]. *)
Theorem delete_item_spec (inventory : ODict.t inventory_item)
  (item_id : string) :
  (ODict.get item_id inventory = None ->
   delete_item inventory item_id = Raise (KeyError item_id)) /\
  (forall item,
     ODict.get item_id inventory = Some item ->
     exists inventory',
       delete_item inventory item_id = Ok inventory' /\
       inventory' = filter (fun entry => entry.1 <> item_id) inventory /\
       ODict.get item_id inventory' = None /\
       (forall other,
          other <> item_id ->
          ODict.get other inventory' = ODict.get other inventory) /\
       delete_item inventory' item_id = Raise (KeyError item_id) /\
       (NoDup (ODict.keys inventory) ->
        S (length inventory') = length inventory)).
Proof.
  unfold delete_item, py_del. split.
  - intros H. now rewrite H.
  - intros item H. rewrite H. eexists. split; [reflexivity |].
    split; [apply ODictRemove.remove_filter |].
    split; [apply ODictRemove.get_remove_eq |]. split; [| split].
    + intros other N. apply ODictRemove.get_remove_ne, N.
    + now rewrite ODictRemove.get_remove_eq.
    + intros Hnd. apply (ODictRemove.length_remove _ _ item); assumption.
Qed.

Lemma delete_item_witness :
  delete_item Scenario.two_items "dcw-001_20251201_101500"
  = Ok [("dcw-002_20251202_093000", Scenario.item_b)].
Proof.
  destruct (delete_item_spec Scenario.two_items "dcw-001_20251201_101500")
    as [_ H].
  destruct (H Scenario.item_a) as (inventory' & Heq & Hfilter & _);
    [vm_compute; reflexivity |].
  rewrite Heq, Hfilter. vm_compute. reflexivity.
Defined.

(** X12.  An item saved under a new id and deleted again leaves the
    inventory as it was before. *)
Theorem save_then_delete (containers : ODict.t Container.t)
  (inventory inventory' : ODict.t inventory_item) (recipe : results)
  (blend : string) (wick_counts : ODict.t Z) (jar_water_oz : float)
  (form : inventory_form) (timestamp : string) :
  ODict.get (item_id_of form timestamp) inventory = None ->
  save_to_inventory containers inventory recipe blend wick_counts
    jar_water_oz form timestamp
  = Ok (inventory', Success) ->
  delete_item inventory' (item_id_of form timestamp) = Ok inventory.
Proof.
  intros Hfresh. unfold save_to_inventory.
  fold (item_id_of form timestamp).
  destruct (PyStr.is_empty _); [discriminate |].
  destruct (PyStr.is_empty _); [discriminate |].
  destruct (ODict.get (form_container_id form) containers); [| discriminate].
  intros H. inversion H. unfold delete_item, py_del.
  rewrite ODictFacts.get_set_eq.
  now rewrite (ODictRemove.remove_set_fresh _ _ _ Hfresh).
Qed.

Lemma save_then_delete_witness :
  delete_item Cases.three_items (item_id_of Cases.form "20251203_100000")
  = Ok Scenario.two_items.
Proof.
  apply (save_then_delete Cases.one_jar Scenario.two_items Cases.three_items
           Cases.recipe "Custom Blend" [("wood_30mm", 1)] (Float.of_Z 8)
           Cases.form "20251203_100000");
    vm_compute; reflexivity.
Defined.

Section Counting.

Lemma summary_counts (inventory : ODict.t inventory_item) (s : summary) :
  summary_metrics inventory = Ok s ->
  total_items s = length inventory /\
  total_quantity s = spec_total_units (ODict.values inventory).
Proof.
  unfold summary_metrics.
  destruct (sum_stock_values _ _) as [t|e]; [| discriminate].
  intros H. inversion H. cbn [total_items total_quantity].
  split; [reflexivity | apply total_quantity_spec].
Qed.

Lemma total_units_app (items items' : list inventory_item) :
  spec_total_units (items ++ items')
  = spec_total_units items + spec_total_units items'.
Proof.
  unfold spec_total_units. induction items as [|item items IH];
    [reflexivity |].
  cbn [app]. rewrite !fmap_cons. cbn [foldr]. rewrite IH. lia.
Qed.

Lemma total_units_alter (inventory : ODict.t inventory_item)
  (item_id : string) (item : inventory_item) (new_qty : Z) :
  ODict.get item_id inventory = Some item ->
  spec_total_units
    (ODict.values (ODict.alter (set_quantity new_qty) item_id inventory))
  = spec_total_units (ODict.values inventory) - quantity item + new_qty.
Proof.
  unfold spec_total_units, ODict.values.
  induction inventory as [|[k it] inventory IH]; [discriminate |].
  cbn [ODict.get ODict.alter]. destruct (decide (item_id = k)) as [E|N].
  - intros H. inversion H. subst. cbn [map snd]. rewrite !fmap_cons.
    cbn [foldr quantity set_quantity]. lia.
  - intros H. cbn [map snd]. rewrite !fmap_cons. cbn [foldr].
    rewrite (IH H). lia.
Qed.

End Counting.

(** X13.  After [update_quantity], the summary counts as many items as
    before, and the total of units has changed by the difference between
    the new quantity and the old one. *)
Theorem update_quantity_summary
  (inventory inventory' : ODict.t inventory_item) (item_id : string)
  (item : inventory_item) (new_qty : Z) (s s' : summary) :
  ODict.get item_id inventory = Some item ->
  update_quantity inventory item_id new_qty = Ok inventory' ->
  summary_metrics inventory = Ok s ->
  summary_metrics inventory' = Ok s' ->
  total_items s' = total_items s /\
  total_quantity s' = total_quantity s - quantity item + new_qty.
Proof.
  intros Hget Hup Hs Hs'. unfold update_quantity in Hup. rewrite Hget in Hup.
  inversion Hup. subst inventory'.
  destruct (summary_counts _ _ Hs) as [Hn Hq].
  destruct (summary_counts _ _ Hs') as [Hn' Hq'].
  rewrite Hn, Hn', Hq, Hq'. split.
  - rewrite <- !(length_map fst). fold (ODict.keys inventory).
    fold (ODict.keys (ODict.alter (set_quantity new_qty) item_id inventory)).
    now rewrite ODictFacts.keys_alter.
  - apply total_units_alter, Hget.
Qed.

Lemma update_quantity_summary_witness :
  total_items
    (Cases.summary_of
       (ODict.alter (set_quantity 7) "dcw-001_20251201_101500"
          Scenario.two_items)) = 2%nat /\
  total_quantity
    (Cases.summary_of
       (ODict.alter (set_quantity 7) "dcw-001_20251201_101500"
          Scenario.two_items)) = 12.
Proof.
  destruct (update_quantity_summary Scenario.two_items
              (ODict.alter (set_quantity 7) "dcw-001_20251201_101500"
                 Scenario.two_items)
              "dcw-001_20251201_101500" Scenario.item_a 7
              (Cases.summary_of Scenario.two_items)
              (Cases.summary_of
                 (ODict.alter (set_quantity 7) "dcw-001_20251201_101500"
                    Scenario.two_items))) as [H1 H2];
    try (vm_compute; reflexivity).
  rewrite H1, H2. split; vm_compute; reflexivity.
Defined.

(** X14.  After an item is saved under a new id, the summary counts one
    item more, and the total of units has grown by the quantity of the
    form. *)
Theorem save_to_inventory_summary (containers : ODict.t Container.t)
  (inventory inventory' : ODict.t inventory_item) (recipe : results)
  (blend : string) (wick_counts : ODict.t Z) (jar_water_oz : float)
  (form : inventory_form) (timestamp : string) (s s' : summary) :
  ODict.get (item_id_of form timestamp) inventory = None ->
  save_to_inventory containers inventory recipe blend wick_counts
    jar_water_oz form timestamp
  = Ok (inventory', Success) ->
  summary_metrics inventory = Ok s ->
  summary_metrics inventory' = Ok s' ->
  total_items s' = S (total_items s) /\
  total_quantity s' = total_quantity s + form_quantity form.
Proof.
  intros Hfresh Hsave Hs Hs'. unfold save_to_inventory in Hsave.
  fold (item_id_of form timestamp) in Hsave.
  destruct (PyStr.is_empty _); [discriminate |].
  destruct (PyStr.is_empty _); [discriminate |].
  destruct (ODict.get (form_container_id form) containers);
    [| discriminate].
  inversion Hsave. subst inventory'. clear Hsave.
  destruct (summary_counts _ _ Hs) as [Hn Hq].
  destruct (summary_counts _ _ Hs') as [Hn' Hq'].
  rewrite Hn, Hn', Hq, Hq'.
  rewrite (ODictRemove.set_fresh _ _ _ Hfresh). split.
  - rewrite length_app. simpl. lia.
  - unfold ODict.values. rewrite map_app, total_units_app.
    unfold spec_total_units. cbn [map snd]. rewrite fmap_cons.
    cbn [fmap list_fmap foldr quantity]. lia.
Qed.

Lemma save_to_inventory_summary_witness :
  total_items (Cases.summary_of Cases.three_items) = 3%nat /\
  total_quantity (Cases.summary_of Cases.three_items) = 12.
Proof.
  destruct (save_to_inventory_summary Cases.one_jar Scenario.two_items
              Cases.three_items Cases.recipe "Custom Blend"
              [("wood_30mm", 1)] (Float.of_Z 8) Cases.form "20251203_100000"
              (Cases.summary_of Scenario.two_items)
              (Cases.summary_of Cases.three_items)) as [H1 H2];
    try (vm_compute; reflexivity).
  rewrite H1, H2. split; vm_compute; reflexivity.
Defined.

(** ** More facts of binary64 arithmetic *)

Module FloatOrder.
Import Float FloatFacts.

(** Two floats that are not NaN compare: what is not [>] is [<=]. *)
Lemma not_gt_le (x y : float) :
  is_nan x = false -> is_nan y = false -> gt x y = false -> le x y = true.
Proof.
  unfold gt, le, ltb, leb, SFltb, SFleb. rewrite (compare_antisym x y).
  intros Nx Ny.
  assert (H : exists c, SFcompare x y = Some c).
  { destruct x as [sx|sx| |sx mx ex], y as [sy|sy| |sy my ey];
      try discriminate; simpl; eexists; reflexivity. }
  destruct H as [c ->]. destruct c; simpl; congruence.
Qed.

Lemma le_not_nan (x y : float) : le x y = true -> is_nan x = false.
Proof. destruct x, y; simpl; try reflexivity; discriminate. Qed.

Lemma binary_round_sign (s : bool) (m : positive) (e : Z) :
  sign_is s (binary_round prec emax s m e) /\
  is_nan (binary_round prec emax s m e) = false.
Proof.
  unfold binary_round.
  destruct (shl_align m e _) as [mz ez]. split.
  - apply binary_round_aux_sign.
  - apply binary_round_aux_not_nan. lia.
Qed.

Lemma binary_normalize_not_nan (m e : Z) (szero : bool) :
  is_nan (binary_normalize prec emax m e szero) = false.
Proof.
  destruct m; simpl; [reflexivity | |]; apply binary_round_sign.
Qed.

(** The sum of two floats that are neither NaN nor negative is neither. *)
Lemma add_nonneg (x y : float) : nonneg x -> nonneg y -> nonneg (add x y).
Proof.
  unfold nonneg.
  destruct x as [sx|sx| |sx mx ex], y as [sy|sy| |sy my ey];
    simpl; intros [Sx Nx] [Sy Ny]; subst; try discriminate;
    try (split; reflexivity).
  unfold add, SFadd. cbn [cond_Zopp Z.add]. apply binary_round_sign.
Qed.

Lemma sum_nonneg (l : list float) :
  forall acc, nonneg acc -> Forall nonneg l -> nonneg (fold_left add l acc).
Proof.
  induction l as [|x l IH]; intros acc Ha Hl; [exact Ha |].
  apply Forall_cons in Hl. destruct Hl as [Hx Hl].
  cbn [fold_left]. apply IH; [apply add_nonneg; assumption | exact Hl].
Qed.

Lemma gt_zero_nonneg (x : float) : gt x zero = true -> nonneg x.
Proof.
  unfold nonneg.
  destruct x as [sx|[]| |[] mx ex]; simpl; intros H; try discriminate;
    split; reflexivity.
Qed.

(** Subtracting a finite float from a float that is not NaN does not give
    NaN. *)
Lemma sub_not_nan (x y : float) :
  is_nan x = false -> is_finite y = true -> is_nan (sub x y) = false.
Proof.
  destruct x as [sx|sx| |sx mx ex], y as [sy|sy| |sy my ey];
    simpl; intros Nx Fy; try discriminate; try reflexivity.
  - destruct sx, sy; reflexivity.
  - apply binary_normalize_not_nan.
Qed.

Lemma abs_not_nan (x : float) : is_nan (abs x) = is_nan x.
Proof. destruct x; reflexivity. Qed.

(** For a total that is not NaN, the two tests of the program on it are
    opposite. *)
Lemma tolerance_tests (total_pct : float) :
  is_nan total_pct = false ->
  gt (abs (sub total_pct hundred)) hundredth = false ->
  le (abs (sub total_pct hundred)) hundredth = true.
Proof.
  intros N G. apply not_gt_le; [| reflexivity | exact G].
  rewrite abs_not_nan. apply sub_not_nan; [exact N | reflexivity].
Qed.

End FloatOrder.

(** ** Building, saving and using a blend *)

Section SavedBlend.
Variable scents_dict : gmap string float.

Lemma no_unknown_keys (entries : list (string * float)) :
  spec_unknown_keys scents_dict entries = [] ->
  Forall (fun k => is_Some (scents_dict !! k)) (ODict.keys entries).
Proof.
  induction entries as [|[k pct] entries IH]; [constructor |].
  rewrite unknown_keys_cons. destruct (scents_dict !! k) eqn:E;
    [| discriminate].
  intros H.
  constructor; [cbn [fst]; rewrite E; eexists; reflexivity | apply IH, H].
Qed.

(** The unguarded pricing loop ends exactly when every scent is known, on
    the sum of the contributions. *)
Lemma weighted_cost_of_Ok (items : list (string * float)) :
  forall acc : float,
    Forall (fun k => is_Some (scents_dict !! k)) (ODict.keys items) ->
    weighted_cost_of scents_dict acc items
    = Ok (fold_left Float.add (spec_known_contributions scents_dict items)
            acc).
Proof.
  induction items as [|[k pct] items IH]; intros acc H; [reflexivity |].
  apply Forall_cons in H. destruct H as [[cost Hk] H]. cbn [fst] in Hk.
  rewrite known_contributions_cons. cbn [weighted_cost_of].
  rewrite Hk. cbn [fold_left]. apply IH, H.
Qed.

Lemma weighted_cost_of_inv (items : list (string * float)) :
  forall acc cost : float,
    weighted_cost_of scents_dict acc items = Ok cost ->
    Forall (fun k => is_Some (scents_dict !! k)) (ODict.keys items).
Proof.
  induction items as [|[k pct] items IH]; intros acc cost H; [constructor |].
  cbn [weighted_cost_of] in H.
  destruct (scents_dict !! k) eqn:E; [| discriminate].
  constructor; [cbn [fst]; rewrite E; eexists; reflexivity |].
  apply (IH _ _ H).
Qed.

Lemma keys_fold_add_row (P : string -> Prop) (rows : list (string * float)) :
  forall blend_scents : ODict.t float,
    Forall P (ODict.keys blend_scents) ->
    Forall (fun row => P row.1) rows ->
    Forall P (ODict.keys (fold_left add_row rows blend_scents)).
Proof.
  induction rows as [|[k pct] rows IH]; intros d Hd Hr; [exact Hd |].
  apply Forall_cons in Hr. destruct Hr as [Hk Hr]. cbn [fold_left].
  apply IH; [| exact Hr]. unfold add_row.
  destruct (Float.gt pct Float.zero); [| exact Hd].
  rewrite ODictFacts.keys_set. destruct (ODict.get k d); [exact Hd |].
  apply Forall_app. split; [exact Hd | constructor; [exact Hk | constructor]].
Qed.

Lemma values_set (P : float -> Prop) (d : ODict.t float) (k : string)
  (v : float) :
  Forall P (ODict.values d) -> P v -> Forall P (ODict.values (ODict.set k v d)).
Proof.
  intros Hd Hv. induction d as [|[k' v'] d IH]; simpl.
  - constructor; [exact Hv | constructor].
  - apply Forall_cons in Hd. destruct Hd as [Hv' Hd].
    destruct (decide (k = k')); simpl; constructor; auto.
Qed.

Lemma get_values (P : float -> Prop) (d : ODict.t float) (k : string)
  (v : float) :
  Forall P (ODict.values d) -> ODict.get k d = Some v -> P v.
Proof.
  induction d as [|[k' v'] d IH]; simpl; [discriminate |].
  intros Hd. apply Forall_cons in Hd. destruct Hd as [Hv' Hd].
  destruct (decide (k = k')); [intros H; inversion H; subst; exact Hv' |].
  apply IH, Hd.
Qed.

(** The percentages of a blend built from rows are neither NaN nor
    negative. *)
Lemma values_fold_add_row (rows : list (string * float)) :
  forall blend_scents : ODict.t float,
    Forall nonneg (ODict.values blend_scents) ->
    Forall nonneg (ODict.values (fold_left add_row rows blend_scents)).
Proof.
  induction rows as [|[k pct] rows IH]; intros d Hd; [exact Hd |].
  cbn [fold_left]. apply IH. unfold add_row.
  destruct (Float.gt pct Float.zero) eqn:G; [| exact Hd].
  apply values_set; [exact Hd |].
  apply FloatOrder.add_nonneg; [| apply FloatOrder.gt_zero_nonneg, G].
  destruct (ODict.get k d) as [v|] eqn:E; simpl.
  - apply (get_values nonneg d k v Hd E).
  - split; reflexivity.
Qed.

Lemma total_of_rows_not_nan (rows : list (string * float)) :
  Float.is_nan (Float.sum (ODict.values (rows_to_blend rows))) = false.
Proof.
  apply (FloatOrder.sum_nonneg (ODict.values (rows_to_blend rows))).
  - split; reflexivity.
  - apply values_fold_add_row. constructor.
Qed.

Lemma size_lookup (blends : gmap string blend_def) (k : string)
  (blend : blend_def) :
  blends !! k = Some blend -> (size blends =? 0)%nat = false.
Proof.
  intros H. apply Nat.eqb_neq. intros E.
  apply map_size_empty_iff in E. subst blends.
  rewrite lookup_empty in H. discriminate H.
Qed.

End SavedBlend.

(** X15.  [build_new_blend] returns no cost for rows that leave no scent.
    With scent keys taken from the catalog (what the selectboxes return) it
    raises no [KeyError].  When it returns a cost, the blend is the one
    built from the rows and is not empty, its total is within 0.01 of 100,
    every scent of it is in the catalog and the cost is the weighted sum
    over its entries. *)
Theorem build_new_blend_spec (scents_dict : gmap string float)
  (rows : list (string * float)) :
  (rows_to_blend rows = [] ->
   build_new_blend scents_dict rows = Ok (None, Float.zero, [])) /\
  (Forall (fun row => is_Some (scents_dict !! row.1)) rows ->
   exists returned, build_new_blend scents_dict rows = Ok returned) /\
  (forall cost total_pct blend_scents,
     build_new_blend scents_dict rows
     = Ok (Some cost, total_pct, blend_scents) ->
     blend_scents = rows_to_blend rows /\ blend_scents <> [] /\
     total_pct = Float.sum (ODict.values blend_scents) /\
     Float.le (Float.abs (Float.sub total_pct Float.hundred)) Float.hundredth
     = true /\
     Forall (fun k => is_Some (scents_dict !! k)) (ODict.keys blend_scents) /\
     spec_weighted_sum scents_dict blend_scents = Some cost).
Proof.
  split; [| split].
  - intros E. unfold build_new_blend. rewrite E. reflexivity.
  - intros Hrows. unfold build_new_blend.
    assert (Hkeys : Forall (fun k => is_Some (scents_dict !! k))
                      (ODict.keys (rows_to_blend rows))).
    { apply keys_fold_add_row; [constructor | exact Hrows]. }
    destruct (rows_to_blend rows) as [|entry entries];
      [eexists; reflexivity |].
    destruct (Float.gt _ _); [eexists; reflexivity |].
    rewrite (weighted_cost_of_Ok _ _ _ Hkeys). eexists; reflexivity.
  - intros cost total_pct blend_scents. unfold build_new_blend.
    pose proof (total_of_rows_not_nan rows) as Hnan.
    destruct (rows_to_blend rows) as [|entry entries] eqn:E;
      [discriminate |].
    destruct (Float.gt _ _) eqn:G; [discriminate |].
    destruct (weighted_cost_of _ _ _) as [c|e] eqn:W; [| discriminate].
    intros H. inversion H. subst. clear H.
    pose proof (weighted_cost_of_inv _ _ _ _ W) as Hkeys.
    split; [reflexivity |]. split; [discriminate |].
    split; [reflexivity |].
    split; [apply FloatOrder.tolerance_tests; assumption |].
    split; [exact Hkeys |].
    rewrite (weighted_cost_of_Ok _ _ _ Hkeys) in W. inversion W.
    unfold spec_weighted_sum.
    destruct (all_known scents_dict _ Hkeys) as [-> _]. reflexivity.
Qed.

Lemma build_new_blend_witness :
  exists returned,
    build_new_blend Scenario.two_scents
      [("lavender", Float.of_Z 60); ("leather", Float.of_Z 40)]
    = Ok returned.
Proof.
  destruct (build_new_blend_spec Scenario.two_scents
              [("lavender", Float.of_Z 60); ("leather", Float.of_Z 40)])
    as (_ & H & _).
  apply H.
  repeat (constructor; [eexists; vm_compute; reflexivity |]). constructor.
Defined.

(** X16.  [use_saved_blend] returns a cost exactly for a valid blend: when
    it returns one, the total of the blend is within 0.01 of 100, every
    scent of it is in the catalog, the cost is the weighted sum over its
    entries and the source is "saved:" followed by the name; and for such a
    blend it does return that.  Without any saved blend the source is
    "no_blend"; a name that is not saved raises [KeyError]. *)
Theorem use_saved_blend_spec (scents_dict : gmap string float)
  (blends : gmap string blend_def) (selected : string) :
  (blends = ∅ -> use_saved_blend scents_dict blends selected
                 = Ok (None, "no_blend")) /\
  (blends <> ∅ -> blends !! selected = None ->
   use_saved_blend scents_dict blends selected = Raise (KeyError selected))
  /\
  (forall entries,
     blends !! selected = Some {| def_scents := Some entries |} ->
     Float.le
       (Float.abs (Float.sub (Float.sum (ODict.values entries)) Float.hundred))
       Float.hundredth = true ->
     Forall (fun k => is_Some (scents_dict !! k)) (ODict.keys entries) ->
     exists cost,
       spec_weighted_sum scents_dict entries = Some cost /\
       use_saved_blend scents_dict blends selected
       = Ok (Some cost, "saved:" +:+ selected)) /\
  (forall cost source,
     use_saved_blend scents_dict blends selected = Ok (Some cost, source) ->
     exists entries,
       blends !! selected = Some {| def_scents := Some entries |} /\
       Float.le
         (Float.abs
            (Float.sub (Float.sum (ODict.values entries)) Float.hundred))
         Float.hundredth = true /\
       Forall (fun k => is_Some (scents_dict !! k)) (ODict.keys entries) /\
       spec_weighted_sum scents_dict entries = Some cost /\
       source = "saved:" +:+ selected).
Proof.
  split; [| split; [| split]].
  - intros ->. reflexivity.
  - intros Hne Hsel. unfold use_saved_blend.
    destruct (size blends =? 0)%nat eqn:S.
    + apply Nat.eqb_eq, map_size_empty_iff in S. contradiction.
    + now rewrite Hsel.
  - intros entries Hsel Hle Hkeys. unfold use_saved_blend.
    rewrite (size_lookup _ _ _ Hsel), Hsel, compute_blend_cost_eq.
    change (blend_scents_of {| def_scents := Some entries |}) with entries.
    cbn [def_scents].
    destruct (all_known scents_dict _ Hkeys) as [Hsum Hunknown].
    rewrite Hunknown, (FloatFacts.le_not_gt _ _ Hle), Hle. cbn.
    eexists. split; [| reflexivity].
    unfold spec_weighted_sum. rewrite Hsum. reflexivity.
  - intros cost source. unfold use_saved_blend.
    destruct (size blends =? 0)%nat; [discriminate |].
    destruct (blends !! selected) as [[[entries|]]|] eqn:Hsel;
      [| rewrite compute_blend_cost_eq; discriminate | discriminate].
    rewrite compute_blend_cost_eq.
    change (blend_scents_of {| def_scents := Some entries |}) with entries.
    cbn [def_scents].
    destruct (Float.le _ _) eqn:Hle; [| discriminate].
    rewrite (FloatFacts.le_not_gt _ _ Hle). cbn [app andb].
    destruct (spec_unknown_keys scents_dict entries) eqn:U;
      [| discriminate].
    intros H. inversion H. subst. exists entries.
    pose proof (no_unknown_keys _ _ U) as Hkeys.
    split; [reflexivity |]. split; [exact Hle |]. split; [exact Hkeys |].
    split; [| reflexivity].
    unfold spec_weighted_sum.
    destruct (all_known scents_dict _ Hkeys) as [-> _]. reflexivity.
Qed.

Lemma use_saved_blend_witness :
  exists cost,
    use_saved_blend Scenario.two_scents
      {[ "Signature" := Scenario.blend_60_40 ]} "Signature"
    = Ok (Some cost, "saved:Signature").
Proof.
  destruct (use_saved_blend_spec Scenario.two_scents
              {[ "Signature" := Scenario.blend_60_40 ]} "Signature")
    as (_ & _ & H & _).
  destruct (H (blend_scents_of Scenario.blend_60_40)) as (cost & _ & E).
  - vm_compute. reflexivity.
  - vm_compute. reflexivity.
  - repeat (constructor; [eexists; vm_compute; reflexivity |]). constructor.
  - exists cost. exact E.
Defined.

(** X17.  A blend for which [build_new_blend] shows a cost and which
    [save_blend] stores is a valid saved blend: selected under the stored
    name, with the same catalog, it is priced at the cost that was shown. *)
Theorem saved_blend_keeps_its_cost (scents_dict : gmap string float)
  (blends blends' : gmap string blend_def) (rows : list (string * float))
  (name : string) (cost total_pct : float) (blend_scents : ODict.t float) :
  build_new_blend scents_dict rows = Ok (Some cost, total_pct, blend_scents)
  ->
  save_blend blends name blend_scents total_pct = (blends', Success) ->
  use_saved_blend scents_dict blends' (PyStr.strip name)
  = Ok (Some cost, "saved:" +:+ PyStr.strip name).
Proof.
  intros Hbuild Hsave.
  destruct (build_new_blend_spec scents_dict rows) as (_ & _ & H).
  destruct (H _ _ _ Hbuild) as (_ & Hne & Htotal & Hle & Hkeys & Hsum).
  clear H. subst total_pct.
  assert (Hstored : blends' !! PyStr.strip name
                    = Some {| def_scents := Some blend_scents |}).
  { unfold save_blend in Hsave. destruct (PyStr.is_empty _); [discriminate |].
    destruct blend_scents; [contradiction |].
    destruct (Float.gt _ _); [discriminate |].
    inversion Hsave. apply lookup_insert_eq. }
  unfold use_saved_blend.
  rewrite (size_lookup _ _ _ Hstored), Hstored, compute_blend_cost_eq.
  change (blend_scents_of {| def_scents := Some blend_scents |})
    with blend_scents.
  cbn [def_scents].
  destruct (all_known scents_dict _ Hkeys) as [Hall Hunknown].
  rewrite Hunknown, (FloatFacts.le_not_gt _ _ Hle), Hle. cbn [app andb fmap
    list_fmap].
  unfold spec_weighted_sum in Hsum. rewrite Hall in Hsum.
  inversion Hsum. reflexivity.
Qed.

Lemma saved_blend_keeps_its_cost_witness :
  exists cost,
    use_saved_blend Scenario.two_scents
      {[ "Signature" := Scenario.blend_60_40 ]} "Signature"
    = Ok (Some cost, "saved:Signature").
Proof.
  destruct (build_new_blend Scenario.two_scents
              (blend_scents_of Scenario.blend_60_40))
    as [[[[cost|] total_pct] blend_scents]|e] eqn:B;
    try (vm_compute in B; discriminate B).
  exists cost.
  apply (saved_blend_keeps_its_cost Scenario.two_scents ∅
           {[ "Signature" := Scenario.blend_60_40 ]}
           (blend_scents_of Scenario.blend_60_40) " Signature " cost
           total_pct blend_scents B).
  vm_compute in B. inversion B. vm_compute. reflexivity.
Defined.

(** X18.  A saved blend whose total is NaN (its file holds a NaN, or both
    infinities) gets no warning about its total, since NaN is not above
    0.01; with all its scents in the catalog it gets no warning at all, and
    yet [use_saved_blend] returns no cost for it, since NaN is not within
    0.01 either. *)
Theorem nan_total_is_invalid_without_warning
  (scents_dict : gmap string float) (blends : gmap string blend_def)
  (selected : string) (entries : ODict.t float) :
  blends !! selected = Some {| def_scents := Some entries |} ->
  Float.is_nan (Float.sum (ODict.values entries)) = true ->
  Forall (fun k => is_Some (scents_dict !! k)) (ODict.keys entries) ->
  (compute_blend_cost_from_definition scents_dict
     {| def_scents := Some entries |}).2 = [] /\
  use_saved_blend scents_dict blends selected
  = Ok (None, "saved_invalid:" +:+ selected).
Proof.
  intros Hsel Hnan Hkeys.
  destruct (all_known scents_dict _ Hkeys) as [_ Hunknown].
  assert (E : Float.sum (ODict.values entries) = S754_nan)
    by (destruct (Float.sum (ODict.values entries)); try discriminate Hnan;
        reflexivity).
  unfold use_saved_blend.
  rewrite (size_lookup _ _ _ Hsel), Hsel, compute_blend_cost_eq.
  change (blend_scents_of {| def_scents := Some entries |}) with entries.
  rewrite Hunknown, E. split; reflexivity.
Qed.

Lemma nan_total_is_invalid_without_warning_witness :
  use_saved_blend Scenario.two_scents
    {[ "Odd" := {| def_scents := Some [("lavender", S754_nan)] |} ]} "Odd"
  = Ok (None, "saved_invalid:Odd").
Proof.
  apply (nan_total_is_invalid_without_warning Scenario.two_scents
           {[ "Odd" := {| def_scents := Some [("lavender", S754_nan)] |} ]}
           "Odd" [("lavender", S754_nan)]).
  - vm_compute. reflexivity.
  - reflexivity.
  - repeat (constructor; [eexists; vm_compute; reflexivity |]). constructor.
Defined.

(** ** The inventory tab *)

Section Search.

Lemma contains_occurs (needle : string) :
  forall haystack,
    contains needle haystack = true <-> occurs_in needle haystack.
Proof.
  induction haystack as [|c haystack IH]; cbn [contains].
  - rewrite orb_false_r. split.
    + intros H. destruct (prefix_inv _ _ H) as [r ->].
      exists EmptyString, r. reflexivity.
    + intros (before & after & H). destruct before.
      * change (EmptyString = needle +:+ after) in H.
        destruct needle; [reflexivity | discriminate H].
      * discriminate H.
  - rewrite orb_true_iff, IH. split.
    + intros [H | (before & after & ->)].
      * destruct (prefix_inv _ _ H) as [r ->].
        exists EmptyString, r. reflexivity.
      * exists (String c before), after. reflexivity.
    + intros (before & after & H). destruct before as [|c' before].
      * left. change (String c haystack = needle +:+ after) in H.
        rewrite H. apply prefix_append.
      * right. simpl in H. inversion H. exists before, after. reflexivity.
Qed.

Lemma lower_append (s t : string) :
  PyStr.lower (s +:+ t) = PyStr.lower s +:+ PyStr.lower t.
Proof. induction s as [|c s IH]; simpl; [reflexivity | now rewrite IH]. Qed.

End Search.

(** X19.  An item is listed by the search exactly when the search is empty
    or its text, lowercased, occurs in the lowercased product name or in
    the lowercased SKU.  So a text that occurs in the name as it is
    written is found whatever the case of the letters typed. *)
Theorem search_lists_item (search : string) (item : inventory_item) :
  (skipped_by_search search item = false <->
   search = EmptyString \/
   occurs_in (PyStr.lower search) (PyStr.lower (product_name item)) \/
   occurs_in (PyStr.lower search) (PyStr.lower (sku item))) /\
  (forall typed,
     PyStr.lower typed = PyStr.lower search ->
     occurs_in search (product_name item) \/ occurs_in search (sku item) ->
     skipped_by_search typed item = false).
Proof.
  assert (H : skipped_by_search search item = false <->
              search = EmptyString \/
              occurs_in (PyStr.lower search) (PyStr.lower (product_name item))
              \/ occurs_in (PyStr.lower search) (PyStr.lower (sku item))).
  { unfold skipped_by_search.
    rewrite !andb_false_iff, !negb_false_iff, !contains_occurs.
    destruct search; simpl; intuition discriminate. }
  split; [exact H |].
  intros typed Hcase Hocc. unfold skipped_by_search. rewrite Hcase.
  apply andb_false_iff.
  destruct Hocc as [(before & after & E) | (before & after & E)].
  - left. apply andb_false_iff. right. apply negb_false_iff.
    apply contains_occurs. exists (PyStr.lower before), (PyStr.lower after).
    now rewrite E, !lower_append.
  - right. apply negb_false_iff.
    apply contains_occurs. exists (PyStr.lower before), (PyStr.lower after).
    now rewrite E, !lower_append.
Qed.

Lemma search_lists_item_witness :
  skipped_by_search "LEATHER" Scenario.item_a = false.
Proof.
  destruct (search_lists_item "Leather" Scenario.item_a) as [_ H].
  apply H; [reflexivity |]. left. exists "Boot ", " - 8oz". reflexivity.
Defined.

(** X20.  The financial lines of an item raise nothing, whatever the item:
    the division by the target price is made only for a target price above
    0, and profit and margin are shown exactly then.  The total unit cost
    is the material cost plus the container cost, a missing one counting
    as 0. *)
Theorem item_financials_spec (item : inventory_item) :
  exists lines,
    item_financials item
    = Ok (Float.add (material_cost item)
            (match container_cost item with
             | Some cost => cost
             | None => Float.zero
             end),
          lines) /\
    (Float.gt (target_price item) Float.zero = false -> lines = None) /\
    (Float.gt (target_price item) Float.zero = true ->
     lines =
     Some (Float.sub (target_price item)
             (Float.add (material_cost item)
                (match container_cost item with
                 | Some cost => cost
                 | None => Float.zero
                 end)),
           Float.mul
             (Float.div
                (Float.sub (target_price item)
                   (Float.add (material_cost item)
                      (match container_cost item with
                       | Some cost => cost
                       | None => Float.zero
                       end)))
                (target_price item))
             Float.hundred)).
Proof.
  unfold item_financials.
  destruct (Float.gt (target_price item) Float.zero) eqn:G.
  - unfold truediv. rewrite (FloatFacts.gt_not_eq _ _ G).
    eexists. split; [reflexivity |]. split; [discriminate | reflexivity].
  - eexists. split; [reflexivity |]. split; [reflexivity | discriminate].
Qed.

Lemma item_financials_witness :
  item_financials Scenario.item_b
  = Ok (Float.of_Z 6, Some (Float.of_Z 19, Float.of_Z 76)).
Proof.
  destruct (item_financials_spec Scenario.item_b) as (lines & E & _ & H).
  rewrite E, H by (vm_compute; reflexivity). vm_compute. reflexivity.
Defined.
